(** * contextwizard: the Probot application [probot-app/index.js]

    A shallow embedding of the webhook handlers of [probot-app/index.js]
    and the properties of its specification.

    The program is JavaScript: values are dynamically typed, property
    reads on [undefined]/[null] raise a [TypeError], every call to GitHub
    or to the backend may reject, and the collector loops with
    [while (true)].  The embedding keeps all of this:
    - JSON values are an inductive type, objects are [gmap string value];
    - text is a list of UTF-16 code units, so that [String.prototype.trim]
      strips exactly the ECMAScript white space;
    - an [async] function is a computation that reads the history of the
      interaction with the outside world, emits events and ends in a
      value, a raised exception, or runs out of fuel (the only loop is
      the pagination loop of [getPrFiles]). *)

From Stdlib Require Import NArith ZArith List Lia Ascii String.
From stdpp Require Import gmap strings list fin_maps.

Local Open Scope string_scope.
Local Open Scope list_scope.

(** ** JavaScript text *)

(** A JavaScript string is a sequence of UTF-16 code units. *)
Abbreviation jsstring := (list N).

(** A string literal of the source (all of them are ASCII). *)
Definition lit (s : string) : jsstring :=
  map N_of_ascii (String.list_ascii_of_string s).

(** ECMAScript [WhiteSpace] and [LineTerminator] code points, the set
    stripped by [String.prototype.trim]. *)
Definition is_white_space (c : N) : bool :=
  ((9 <=? c) && (c <=? 13) (* TAB, LF, VT, FF, CR *)
   || (c =? 32) || (c =? 160) || (c =? 5760)
   || (8192 <=? c) && (c <=? 8202)
   || (c =? 8232) || (c =? 8233) || (c =? 8239) || (c =? 8287)
   || (c =? 12288) || (c =? 65279))%N.

Fixpoint trim_start (s : jsstring) : jsstring :=
  match s with
  | c :: s' => if is_white_space c then trim_start s' else s
  | [] => []
  end.

(** [s.trim()] *)
Definition trim (s : jsstring) : jsstring :=
  rev (trim_start (rev (trim_start s))).

(** [s.endsWith(suffix)] *)
Definition endsWith (s suffix : jsstring) : bool :=
  if (length suffix <=? length s)%nat
  then bool_decide (skipn (length s - length suffix) s = suffix)
  else false.

(** ** JavaScript values *)

(** The values that reach the program: everything it reads comes from
    parsed JSON (webhook payloads, API responses), so there are no
    functions and no accessors.  The numbers of the payloads are counts
    and identifiers; a number is only ever copied or tested for
    truthiness. *)
#[warnings="-register-all"]
Inductive value : Type :=
| VUndefined
| VNull
| VBool (b : bool)
| VNum (n : Z)
| VStr (s : jsstring)
| VArr (l : list value)
| VObj (o : gmap string value).

Abbreviation obj := (gmap string value).

Definition str (s : string) : value := VStr (lit s).

(** What a rejected promise or a failed operation carries. *)
Inductive exn : Type :=
| TypeError
| RequestError (status : Z).

Inductive result (A : Type) : Type :=
| Ok (a : A)
| Throw (e : exn).
Arguments Ok {A} a.
Arguments Throw {A} e.

(** ToBoolean *)
Definition truthy (v : value) : bool :=
  match v with
  | VUndefined | VNull => false
  | VBool b => b
  | VNum n => negb (n =? 0)%Z
  | VStr s => match s with [] => false | _ => true end
  | VArr _ | VObj _ => true
  end.

(** [a || b] on evaluated operands (every right operand of [||] in the
    source is a literal). *)
Definition js_or (a b : value) : value := if truthy a then a else b.

(** [v === "literal"] *)
Definition strict_eq_lit (v : value) (s : string) : bool :=
  match v with
  | VStr t => bool_decide (t = lit s)
  | _ => false
  end.

(** [o.k] on an object: an own property or [undefined]. *)
Definition prop (o : obj) (k : string) : value := default VUndefined (o !! k).

(** [v.k] for the property names read by the program ([sender], [type],
    [login], [body], [content], ...): none of them is defined on the
    prototype of a JSON value, so the read gives [undefined] on a
    boolean, number, string or array, and raises on [undefined] and
    [null]. *)
Definition get (v : value) (k : string) : result value :=
  match v with
  | VUndefined | VNull => Throw TypeError
  | VObj o => Ok (prop o k)
  | _ => Ok VUndefined
  end.

(** [v.trim()]: only a string has the method; calling [undefined] raises. *)
Definition call_trim (v : value) : result value :=
  match v with
  | VStr s => Ok (VStr (trim s))
  | _ => Throw TypeError
  end.

(** [v.endsWith("literal")] *)
Definition call_endsWith (v : value) (suffix : string) : result value :=
  match v with
  | VStr s => Ok (VBool (endsWith s (lit suffix)))
  | _ => Throw TypeError
  end.

(** [Array.isArray(v)] *)
Definition isArray (v : value) : bool :=
  match v with VArr _ => true | _ => false end.

(** ** The data of the program *)

(** An entry of the list returned by [getPrFiles] (the object literal
    pushed at the end of the loop body). *)
Record ChangedFile : Type := {
  filename : value;
  status : value;
  additions : value;
  deletions : value;
  changes : value;
  patch : value;
  base_content : value;
  head_content : value
}.

(** [payloadForBackend], the object literal of both handlers. *)
Record BackendPayload : Type := {
  kind : value;
  review_body : value;
  review_state : value;
  comment_body : value;
  comment_path : value;
  comment_diff_hunk : value;
  comment_position : value;
  comment_id : value;
  reviewer_login : value;
  pr_number : value;
  pr_title : value;
  pr_body : value;
  pr_author_login : value;
  repo_full_name : value;
  repo_owner : value;
  repo_name : value;
  files : list ChangedFile
}.

(** ** The outside world *)

Inductive level : Type := Info | Error.

(** The structured argument of a log call. *)
Inductive log_ctx : Type :=
| NoCtx
| CtxPayload (p : BackendPayload)
| CtxErr (err : exn)
| CtxFetch (err : exn) (path ref : value).

(** What the program does to the outside world, with the answer it got.
    The answer of a listing is [res.data], an array of file objects; the
    answer of [getContent] and of the backend is [res.data]. *)
Inductive event : Type :=
| EListFiles (owner repo pull_number : value) (per_page page : nat)
    (res : result (list obj))
| EGetContent (owner repo path ref : value) (res : result value)
| EPost (url : value) (payload : BackendPayload) (res : result value)
| ECreateComment (owner repo issue_number body : value) (res : result unit)
| ECreateReply (owner repo pull_number comment_id body : value)
    (res : result unit)
| ELog (lvl : level) (msg : string) (ctx : log_ctx).

(** The collaborators of the program.  Every answer may depend on the
    whole history of the delivery, so nothing is assumed about GitHub or
    the backend: they may fail at any call and answer the same request
    differently each time.  [Buffer_decode content encoding] is
    [Buffer.from(content, encoding).toString("utf8")] of the Node.js
    runtime, which raises on an unknown encoding or a content it cannot
    read. *)
Record World : Type := {
  env_BACKEND_URL : option jsstring;
  listFiles : list event -> value -> value -> value -> nat -> nat ->
              result (list obj);
  getContent : list event -> value -> value -> value -> value -> result value;
  axios_post : list event -> value -> BackendPayload -> result value;
  createComment : list event -> value -> value -> value -> value -> result unit;
  createReplyForReviewComment :
    list event -> value -> value -> value -> value -> value -> result unit;
  Buffer_decode : value -> value -> result jsstring
}.

(** ** Computations *)

(** How a call ends: with a value, with an exception, or not within the
    given number of pagination rounds. *)
Inductive outcome (A : Type) : Type :=
| Done (a : A)
| Raised (e : exn)
| OutOfFuel.
Arguments Done {A} a.
Arguments Raised {A} e.
Arguments OutOfFuel {A}.

(** An [async] function: from the history so far to its outcome and the
    events it emitted, oldest first. *)
Definition M (A : Type) : Type := list event -> outcome A * list event.

Definition ret {A} (a : A) : M A := fun _ => (Done a, []).

Definition bind {A B} (m : M A) (k : A -> M B) : M B :=
  fun h =>
    match m h with
    | (Done a, evs) => let '(o, evs') := k a (h ++ evs) in (o, evs ++ evs')
    | (Raised e, evs) => (Raised e, evs)
    | (OutOfFuel, evs) => (OutOfFuel, evs)
    end.

Declare Scope js_scope.
Delimit Scope js_scope with js.
Notation "x <- c1 ;; c2" := (bind c1 (fun x => c2))
  (at level 100, c1 at next level, right associativity) : js_scope.
Notation "c1 ;; c2" := (bind c1 (fun _ => c2))
  (at level 100, right associativity) : js_scope.
Local Open Scope js_scope.

(** A synchronous step that may raise. *)
Definition lift {A} (r : result A) : M A :=
  fun _ => (match r with Ok a => Done a | Throw e => Raised e end, []).

Definition out_of_fuel {A} : M A := fun _ => (OutOfFuel, []).

(** [try { body } catch (err) { handler }] *)
Definition try_catch {A} (body : M A) (handler : exn -> M A) : M A :=
  fun h =>
    match body h with
    | (Raised e, evs) =>
        let '(o, evs') := handler e (h ++ evs) in (o, evs ++ evs')
    | r => r
    end.

(** [context.log(...)], [context.log.info(...)], [context.log.error(...)]:
    the logger of the hosting framework records the entry and returns. *)
Definition log (lvl : level) (msg : string) (ctx : log_ctx) : M unit :=
  fun _ => (Done tt, [ELog lvl msg ctx]).

(** [await] of a call: ask the world, record the exchange, resume with
    the answer or raise the rejection. *)
Definition await {A} (answer : list event -> result A)
    (ev : result A -> event) : M A :=
  fun h =>
    let r := answer h in
    (match r with Ok a => Done a | Throw e => Raised e end, [ev r]).

(** ** The program *)

Section Program.

Variable w : World.

(** *** [callBackend] (index.js, lines 7-29) *)

Definition backendUrl : value :=
  match env_BACKEND_URL w with
  | Some s => VStr s
  | None => VUndefined
  end.

Definition callBackend (payloadForBackend : BackendPayload) : M value :=
  if negb (truthy backendUrl) then
    log Error "BACKEND_URL is not set in environment variables" NoCtx ;;
    ret VNull
  else
    log Info "Sending payload to backend" (CtxPayload payloadForBackend) ;;
    try_catch
      (data <- await (fun h => axios_post w h backendUrl payloadForBackend)
                     (EPost backendUrl payloadForBackend) ;;
       commentBody <- lift (get data "comment") ;;
       blank <- (if negb (truthy commentBody) then ret true
                 else trimmed <- lift (call_trim commentBody) ;;
                      ret (negb (truthy trimmed))) ;;
       if (blank : bool) then
         log Info "Backend returned empty comment, skipping." NoCtx ;;
         ret VNull
       else ret commentBody)
      (fun err =>
         log Error "Error calling backend" (CtxErr err) ;;
         ret VNull).

(** *** [getFileContent] (lines 34-60) *)

Definition getFileContent (owner repo path ref : value) : M value :=
  try_catch
    (data <- await (fun h => getContent w h owner repo path ref)
                   (EGetContent owner repo path ref) ;;
     skip <- (if isArray data then ret true
              else content <- lift (get data "content") ;;
                   ret (negb (truthy content))) ;;
     if (skip : bool) then ret VNull
     else
       content <- lift (get data "content") ;;
       encoding0 <- lift (get data "encoding") ;;
       let encoding := js_or encoding0 (str "base64") in
       text <- lift (Buffer_decode w content encoding) ;;
       ret (VStr text))
    (fun err =>
       log Error "Failed to fetch file content from GitHub"
         (CtxFetch err path ref) ;;
       ret VNull).

(** *** [getPrFiles] (lines 67-114) *)

(** The body of [for (const f of res.data)]: the entry pushed for [f]. *)
Definition collect_file (owner repo baseSha headSha : value) (f : obj)
  : M ChangedFile :=
  let filename := prop f "filename" in
  baseContent <- (if strict_eq_lit (prop f "status") "added" then ret VNull
                  else getFileContent owner repo filename baseSha) ;;
  headContent <- (if strict_eq_lit (prop f "status") "removed" then ret VNull
                  else getFileContent owner repo filename headSha) ;;
  ret {| filename := filename;
         status := prop f "status";
         additions := prop f "additions";
         deletions := prop f "deletions";
         changes := prop f "changes";
         patch := js_or (prop f "patch") VNull;
         base_content := baseContent;
         head_content := headContent |}.

(** The [for] loop over one page; [files] is the array being filled. *)
Fixpoint for_files (owner repo baseSha headSha : value) (data : list obj)
    (files : list ChangedFile) : M (list ChangedFile) :=
  match data with
  | [] => ret files
  | f :: rest =>
      entry <- collect_file owner repo baseSha headSha f ;;
      for_files owner repo baseSha headSha rest (files ++ [entry])
  end.

(** The [while (true)] loop; one unit of fuel is one round. *)
Fixpoint getPrFiles_loop (fuel : nat)
    (owner repo prNumber baseSha headSha : value)
    (page : nat) (files : list ChangedFile) : M (list ChangedFile) :=
  match fuel with
  | O => out_of_fuel
  | S fuel' =>
      data <- await (fun h => listFiles w h owner repo prNumber 100 page)
                    (EListFiles owner repo prNumber 100 page) ;;
      if (length data =? 0)%nat then ret files
      else
        files' <- for_files owner repo baseSha headSha data files ;;
        if (length data <? 100)%nat then ret files'
        else getPrFiles_loop fuel' owner repo prNumber baseSha headSha
               (page + 1) files'
  end.

Definition getPrFiles (fuel : nat)
    (owner repo prNumber baseSha headSha : value) : M (list ChangedFile) :=
  getPrFiles_loop fuel owner repo prNumber baseSha headSha 1 [].

(** *** [isFromBot] (lines 117-123), on [context.payload] *)

Definition isFromBot (payload : value) : result bool :=
  match get payload "sender" with
  | Throw e => Throw e
  | Ok sender =>
      if negb (truthy sender) then Ok false
      else
        match get sender "type" with
        | Throw e => Throw e
        | Ok type =>
            if strict_eq_lit type "Bot" then Ok true
            else
              match get sender "login" with
              | Throw e => Throw e
              | Ok login =>
                  if negb (truthy login) then Ok false
                  else
                    match call_endsWith login "[bot]" with
                    | Throw e => Throw e
                    | Ok ends => Ok (truthy ends)
                    end
              end
        end
  end.

(** [a && a.k] *)
Definition and_get (a : value) (k : string) : M value :=
  if truthy a then lift (get a k) else ret a.

(** *** The handler of [pull_request_review.submitted] (lines 127-197) *)

Definition review_submitted_body (fuel : nat) (payload : value) : M unit :=
  bot <- lift (isFromBot payload) ;;
  if (bot : bool) then
    log Info "Skipping pull_request_review from bot sender." NoCtx
  else
    review <- lift (get payload "review") ;;
    pr <- lift (get payload "pull_request") ;;
    repo <- lift (get payload "repository") ;;
    body <- lift (get review "body") ;;
    let reviewBody := js_or body (str "") in
    trimmed <- lift (call_trim reviewBody) ;;
    if negb (truthy trimmed) then
      log Info "Review body empty, skipping." NoCtx
    else
      repo_owner_obj <- lift (get repo "owner") ;;
      owner <- lift (get repo_owner_obj "login") ;;
      repoName <- lift (get repo "name") ;;
      prNumber <- lift (get pr "number") ;;
      base <- lift (get pr "base") ;;
      baseSha <- lift (get base "sha") ;;
      head <- lift (get pr "head") ;;
      headSha <- lift (get head "sha") ;;
      files <- getPrFiles fuel owner repoName prNumber baseSha headSha ;;
      state <- lift (get review "state") ;;
      review_user <- lift (get review "user") ;;
      reviewer <- and_get review_user "login" ;;
      title <- lift (get pr "title") ;;
      pr_body_v <- lift (get pr "body") ;;
      pr_user <- lift (get pr "user") ;;
      author <- and_get pr_user "login" ;;
      full_name <- lift (get repo "full_name") ;;
      let payloadForBackend :=
        {| kind := str "review";
           review_body := reviewBody;
           review_state := state;
           comment_body := VNull;
           comment_path := VNull;
           comment_diff_hunk := VNull;
           comment_position := VNull;
           comment_id := VNull;
           reviewer_login := reviewer;
           pr_number := prNumber;
           pr_title := title;
           pr_body := pr_body_v;
           pr_author_login := author;
           repo_full_name := full_name;
           repo_owner := owner;
           repo_name := repoName;
           files := files |} in
      commentBody <- callBackend payloadForBackend ;;
      if negb (truthy commentBody) then ret tt
      else
        await (fun h => createComment w h owner repoName prNumber commentBody)
              (ECreateComment owner repoName prNumber commentBody).

Definition on_pull_request_review_submitted (fuel : nat) (payload : value)
  : M unit :=
  try_catch (review_submitted_body fuel payload)
    (fun err =>
       log Error "Error while handling pull_request_review.submitted"
         (CtxErr err)).

(** *** The handler of [pull_request_review_comment.created] (lines 200-273) *)

Definition review_comment_created_body (fuel : nat) (payload : value)
  : M unit :=
  bot <- lift (isFromBot payload) ;;
  if (bot : bool) then
    log Info "Skipping pull_request_review_comment from bot sender." NoCtx
  else
    comment <- lift (get payload "comment") ;;
    pr <- lift (get payload "pull_request") ;;
    repo <- lift (get payload "repository") ;;
    body <- lift (get comment "body") ;;
    let commentBodyOriginal := js_or body (str "") in
    trimmed <- lift (call_trim commentBodyOriginal) ;;
    if negb (truthy trimmed) then
      log Info "Inline comment body empty, skipping." NoCtx
    else
      repo_owner_obj <- lift (get repo "owner") ;;
      owner <- lift (get repo_owner_obj "login") ;;
      repoName <- lift (get repo "name") ;;
      prNumber <- lift (get pr "number") ;;
      base <- lift (get pr "base") ;;
      baseSha <- lift (get base "sha") ;;
      head <- lift (get pr "head") ;;
      headSha <- lift (get head "sha") ;;
      files <- getPrFiles fuel owner repoName prNumber baseSha headSha ;;
      path <- lift (get comment "path") ;;
      diff_hunk <- lift (get comment "diff_hunk") ;;
      position <- lift (get comment "position") ;;
      id <- lift (get comment "id") ;;
      comment_user <- lift (get comment "user") ;;
      reviewer <- and_get comment_user "login" ;;
      title <- lift (get pr "title") ;;
      pr_body_v <- lift (get pr "body") ;;
      pr_user <- lift (get pr "user") ;;
      author <- and_get pr_user "login" ;;
      full_name <- lift (get repo "full_name") ;;
      let payloadForBackend :=
        {| kind := str "review_comment";
           review_body := VNull;
           review_state := VNull;
           comment_body := commentBodyOriginal;
           comment_path := path;
           comment_diff_hunk := diff_hunk;
           comment_position := position;
           comment_id := id;
           reviewer_login := reviewer;
           pr_number := prNumber;
           pr_title := title;
           pr_body := pr_body_v;
           pr_author_login := author;
           repo_full_name := full_name;
           repo_owner := owner;
           repo_name := repoName;
           files := files |} in
      replyBody <- callBackend payloadForBackend ;;
      if negb (truthy replyBody) then ret tt
      else
        reply_id <- lift (get comment "id") ;;
        await (fun h => createReplyForReviewComment w h owner repoName
                          prNumber reply_id replyBody)
              (ECreateReply owner repoName prNumber reply_id replyBody) ;;
        log Info "Replied to inline review comment." NoCtx.

Definition on_pull_request_review_comment_created (fuel : nat)
    (payload : value) : M unit :=
  try_catch (review_comment_created_body fuel payload)
    (fun err =>
       log Error "Error while handling pull_request_review_comment.created"
         (CtxErr err)).

End Program.

(** * Vocabulary of the properties *)

(** ** Text *)

(** A text of white space only (the empty text included). *)
Definition blank (s : jsstring) : Prop :=
  Forall (fun c => is_white_space c = true) s.

(** ** Computations *)

(** A computation [finishes] when it cannot run out of fuel. *)
Definition finishes {A} (m : M A) : Prop :=
  forall h, fst (m h) <> OutOfFuel.

(** A computation that only emits events in [P] and, when it returns,
    returns a value in [Q]. *)
Definition emits {A} (P : event -> Prop) (Q : A -> Prop) (m : M A) : Prop :=
  forall h, Forall P (snd (m h)) /\ forall a, fst (m h) = Done a -> Q a.

(** ** Traces *)

(** The kinds of events. *)
Definition is_log (ev : event) : bool :=
  match ev with ELog _ _ _ => true | _ => false end.

Definition is_fetch (ev : event) : bool :=
  match ev with EGetContent _ _ _ _ _ => true | _ => false end.

Definition is_listing (ev : event) : bool :=
  match ev with EListFiles _ _ _ _ _ _ => true | _ => false end.

Definition is_backend_call (ev : event) : bool :=
  match ev with EPost _ _ _ => true | _ => false end.

Definition is_write (ev : event) : bool :=
  match ev with
  | ECreateComment _ _ _ _ _ | ECreateReply _ _ _ _ _ _ => true
  | _ => false
  end.

(** The events of a content lookup. *)
Definition fetch_event (ev : event) : Prop := is_fetch ev || is_log ev = true.

(** The events of the collector: listings, content lookups, log entries. *)
Definition read_event (ev : event) : Prop :=
  is_listing ev || is_fetch ev || is_log ev = true.

(** Log entries: no call to GitHub or to the backend. *)
Definition log_event (ev : event) : Prop := is_log ev = true.

(** Events that are no write to GitHub. *)
Definition not_write (ev : event) : Prop := is_write ev = false.

(** Events that are no listing and no write. *)
Definition quiet_event (ev : event) : Prop :=
  is_listing ev || is_write ev = false.

(** The content requests of a trace: owner, repository, path, ref. *)
Definition content_requests (evs : list event)
  : list (value * value * value * value) :=
  flat_map (fun ev => match ev with
                      | EGetContent o r p rf _ => [(o, r, p, rf)]
                      | _ => []
                      end) evs.

(** The listing requests of a trace: page size and page number. *)
Definition listings (evs : list event) : list (nat * nat) :=
  flat_map (fun ev => match ev with
                      | EListFiles _ _ _ per_page page _ => [(per_page, page)]
                      | _ => []
                      end) evs.

(** The entries the listings of a trace returned. *)
Definition listed (evs : list event) : list obj :=
  flat_map (fun ev => match ev with
                      | EListFiles _ _ _ _ _ (Ok data) => data
                      | _ => []
                      end) evs.

(** The sizes of the pages the listings returned. *)
Definition page_sizes (evs : list event) : list nat :=
  flat_map (fun ev => match ev with
                      | EListFiles _ _ _ _ _ (Ok data) => [length data]
                      | _ => []
                      end) evs.

(** The errors of the listings that failed. *)
Definition listing_failures (evs : list event) : list exn :=
  flat_map (fun ev => match ev with
                      | EListFiles _ _ _ _ _ (Throw e) => [e]
                      | _ => []
                      end) evs.

(** The errors of the calls whose failure nobody absorbs: the listings
    and the writes. *)
Definition call_failures (evs : list event) : list exn :=
  flat_map (fun ev => match ev with
                      | EListFiles _ _ _ _ _ (Throw e)
                      | ECreateComment _ _ _ _ (Throw e)
                      | ECreateReply _ _ _ _ _ (Throw e) => [e]
                      | _ => []
                      end) evs.

(** A computation [propagates] when each such failure is its outcome. *)
Definition propagates {A} (m : M A) : Prop :=
  forall h e, In e (call_failures (snd (m h))) -> fst (m h) = Raised e.


(** ** Changed files *)

(** [string | null] *)
Definition is_content (v : value) : Prop := v = VNull \/ exists s, v = VStr s.

(** The invariant of the data model on a [ChangedFile]. *)
Definition ChangedFile_inv (cf : ChangedFile) : Prop :=
  (status cf = str "added" -> base_content cf = VNull)
  /\ (status cf = str "removed" -> head_content cf = VNull).

(** [cf] is the entry assembled for the listed file [f]. *)
Definition entry_for (f : obj) (cf : ChangedFile) : Prop :=
  filename cf = prop f "filename"
  /\ status cf = prop f "status"
  /\ additions cf = prop f "additions"
  /\ deletions cf = prop f "deletions"
  /\ changes cf = prop f "changes"
  /\ patch cf = js_or (prop f "patch") VNull
  /\ is_content (base_content cf) /\ is_content (head_content cf)
  /\ ChangedFile_inv cf.

(** The content lookups the collector makes for a listed file. *)
Definition expected_requests (owner repo baseSha headSha : value) (f : obj)
  : list (value * value * value * value) :=
  (if strict_eq_lit (prop f "status") "added" then []
   else [(owner, repo, prop f "filename", baseSha)])
  ++ (if strict_eq_lit (prop f "status") "removed" then []
      else [(owner, repo, prop f "filename", headSha)]).

(** The answers of the content lookups of a trace, in order. *)
Definition content_answers (evs : list event) : list (result value) :=
  flat_map (fun ev => match ev with
                      | EGetContent _ _ _ _ r => [r]
                      | _ => []
                      end) evs.

(** The answer of one lookup: none when the lookup is skipped, the next
    of [answers] otherwise; and the answers left. *)
Definition take_answer (skip : bool) (answers : list (result value))
  : option (result value) * list (result value) :=
  if skip then (None, answers)
  else match answers with
       | r :: rest => (Some r, rest)
       | [] => (None, [])
       end.

(** The answers of a run dealt to the files listed, in the order of the
    lookups: for each file the answer of its base lookup (none for an
    added file) and of its head lookup (none for a removed file). *)
Fixpoint deal (fs : list obj) (answers : list (result value))
  : list (option (result value) * option (result value)) :=
  match fs with
  | [] => []
  | f :: fs' =>
      let '(rb, answers1) :=
        take_answer (strict_eq_lit (prop f "status") "added") answers in
      let '(rh, answers2) :=
        take_answer (strict_eq_lit (prop f "status") "removed") answers1 in
      (rb, rh) :: deal fs' answers2
  end.

(** A lookup that failed left [null]. *)
Definition null_if_failed (r : option (result value)) (content : value)
  : Prop :=
  forall e, r = Some (Throw e) -> content = VNull.

(** The entry [cf] absorbed the failures among the answers [rs] of its
    two lookups. *)
Definition absorbs (cf : ChangedFile)
    (rs : option (result value) * option (result value)) : Prop :=
  null_if_failed (fst rs) (base_content cf)
  /\ null_if_failed (snd rs) (head_content cf).

(** ** Listings *)

(** The page [page] (from 1) of a listing, [per_page] entries a page. *)
Definition page_of (L : list obj) (per_page page : nat) : list obj :=
  firstn per_page (skipn ((page - 1) * per_page) L).

(** A world whose pull request has the changed files [L]. *)
Definition serves (w : World) (owner repo prNumber : value) (L : list obj)
  : Prop :=
  forall h per_page page,
    listFiles w h owner repo prNumber per_page page
    = Ok (page_of L per_page page).

(** From page [n] on, a listing that succeeds is short: the pull request
    has fewer than [100 * n] changed files. *)
Definition pages_end (w : World) (n : nat) : Prop :=
  forall h owner repo prNumber page data,
    n <= page ->
    listFiles w h owner repo prNumber 100 page = Ok data -> length data < 100.

(** ** The backend *)



(** In the trace [evs] the backend has answered with the comment [body],
    a string that is not blank. *)
Definition answered (evs : list event) (body : value) : Prop :=
  exists url p data s,
    In (EPost url p (Ok data)) evs
    /\ get data "comment" = Ok (VStr s) /\ ~ blank s /\ body = VStr s.




(** ** Payloads *)

(** The sender of the payload is a bot: its type is ["Bot"] or its login
    ends with ["[bot]"]. *)
Definition bot_sender (payload : value) : Prop :=
  exists sender,
    get payload "sender" = Ok sender
    /\ (get sender "type" = Ok (str "Bot")
        \/ exists p, get sender "login" = Ok (VStr (p ++ lit "[bot]"))).

(** The text [payload.item.body] is missing, empty or white space only. *)
Definition blank_body (payload : value) (item : string) : Prop :=
  exists it body,
    get payload item = Ok it /\ get it "body" = Ok body
    /\ (truthy body = false \/ exists s, body = VStr s /\ blank s).

(** ** Reading a payload along a path *)

(** [v.k1.k2...]: the reads of a chain of properties, in order. *)
Fixpoint get_path (v : value) (ks : list string) : result value :=
  match ks with
  | [] => Ok v
  | k :: ks' =>
      match get v k with
      | Ok x => get_path x ks'
      | Throw e => Throw e
      end
  end.

(** A text with a character that is not white space. *)
Definition is_text (v : value) : Prop := exists s, v = VStr s /\ ~ blank s.

(** ** What the events of a run are about *)

(** The events of one content lookup of [path] at [ref]. *)
Definition lookup_event (owner repo path ref : value) (ev : event) : Prop :=
  match ev with
  | EGetContent o r p rf _ => o = owner /\ r = repo /\ p = path /\ rf = ref
  | ELog _ _ _ => True
  | _ => False
  end.

(** The events of the collector called with these arguments. *)
Definition collector_event (owner repo prNumber baseSha headSha : value)
    (ev : event) : Prop :=
  match ev with
  | EListFiles o r n per_page _ _ =>
      o = owner /\ r = repo /\ n = prNumber /\ per_page = 100
  | EGetContent o r _ rf _ =>
      o = owner /\ r = repo /\ (rf = baseSha \/ rf = headSha)
  | ELog _ _ _ => True
  | _ => False
  end.

(** The events of [callBackend] called with the payload [p]. *)
Definition notifier_event (w : World) (p : BackendPayload) (ev : event)
  : Prop :=
  match ev with
  | EPost url q _ => url = backendUrl w /\ q = p
  | ELog _ _ _ => True
  | _ => False
  end.

(** The numbers of backend requests and of writes of a trace. *)
Definition backend_calls (evs : list event) : nat :=
  length (List.filter is_backend_call evs).

Definition writes (evs : list event) : nat :=
  length (List.filter is_write evs).

(** Events that are no backend request and no write. *)
Definition silent_event (ev : event) : Prop :=
  is_backend_call ev = false /\ is_write ev = false.

(** A computation with at most [np] backend requests and [nw] writes. *)
Definition at_most {A} (np nw : nat) (m : M A) : Prop :=
  forall h, backend_calls (snd (m h)) <= np /\ writes (snd (m h)) <= nw.

(** The pull request a delivery is about, as the handlers read it. *)
Definition about (payload owner repoName prNumber baseSha headSha : value)
  : Prop :=
  get_path payload ["repository"; "owner"; "login"] = Ok owner
  /\ get_path payload ["repository"; "name"] = Ok repoName
  /\ get_path payload ["pull_request"; "number"] = Ok prNumber
  /\ get_path payload ["pull_request"; "base"; "sha"] = Ok baseSha
  /\ get_path payload ["pull_request"; "head"; "sha"] = Ok headSha.

(** Every call to GitHub of the trace is about the pull request of the
    payload; a reply answers the comment of the payload. *)
Definition addressed (payload : value) (ev : event) : Prop :=
  match ev with
  | EListFiles o r n per_page _ _ =>
      get_path payload ["repository"; "owner"; "login"] = Ok o
      /\ get_path payload ["repository"; "name"] = Ok r
      /\ get_path payload ["pull_request"; "number"] = Ok n
      /\ per_page = 100
  | EGetContent o r _ rf _ =>
      get_path payload ["repository"; "owner"; "login"] = Ok o
      /\ get_path payload ["repository"; "name"] = Ok r
      /\ (get_path payload ["pull_request"; "base"; "sha"] = Ok rf
          \/ get_path payload ["pull_request"; "head"; "sha"] = Ok rf)
  | ECreateComment o r n _ _ =>
      get_path payload ["repository"; "owner"; "login"] = Ok o
      /\ get_path payload ["repository"; "name"] = Ok r
      /\ get_path payload ["pull_request"; "number"] = Ok n
  | ECreateReply o r n id _ _ =>
      get_path payload ["repository"; "owner"; "login"] = Ok o
      /\ get_path payload ["repository"; "name"] = Ok r
      /\ get_path payload ["pull_request"; "number"] = Ok n
      /\ get_path payload ["comment"; "id"] = Ok id
  | _ => True
  end.

(** [v] is the value of [a && a.k]: the property [k] of a truthy [a], and
    [a] itself when it is falsy ([undefined], [null], ...). *)
Definition guarded_read (a : value) (k : string) (v : value) : Prop :=
  if truthy a then get a k = Ok v else v = a.

(** [v] is the value of [payload.item.user && payload.item.user.login]. *)
Definition login_of (payload : value) (item : string) (v : value) : Prop :=
  exists user,
    get_path payload [item; "user"] = Ok user /\ guarded_read user "login" v.

(** The common part of the payloads sent to the backend: the pull
    request, its author and the repository of the delivery, and
    well-formed files. *)
Definition payload_of (payload : value) (p : BackendPayload) : Prop :=
  get_path payload ["pull_request"; "number"] = Ok (pr_number p)
  /\ get_path payload ["pull_request"; "title"] = Ok (pr_title p)
  /\ get_path payload ["pull_request"; "body"] = Ok (pr_body p)
  /\ login_of payload "pull_request" (pr_author_login p)
  /\ get_path payload ["repository"; "full_name"] = Ok (repo_full_name p)
  /\ get_path payload ["repository"; "owner"; "login"] = Ok (repo_owner p)
  /\ get_path payload ["repository"; "name"] = Ok (repo_name p)
  /\ Forall ChangedFile_inv (files p).

(** The payload of a review. *)
Definition review_payload (payload : value) (p : BackendPayload) : Prop :=
  kind p = str "review"
  /\ get_path payload ["review"; "body"] = Ok (review_body p)
  /\ is_text (review_body p)
  /\ get_path payload ["review"; "state"] = Ok (review_state p)
  /\ login_of payload "review" (reviewer_login p)
  /\ comment_body p = VNull /\ comment_path p = VNull
  /\ comment_diff_hunk p = VNull /\ comment_position p = VNull
  /\ comment_id p = VNull
  /\ payload_of payload p.

(** The payload of an inline comment. *)
Definition comment_payload (payload : value) (p : BackendPayload) : Prop :=
  kind p = str "review_comment"
  /\ review_body p = VNull /\ review_state p = VNull
  /\ get_path payload ["comment"; "body"] = Ok (comment_body p)
  /\ is_text (comment_body p)
  /\ get_path payload ["comment"; "path"] = Ok (comment_path p)
  /\ get_path payload ["comment"; "diff_hunk"] = Ok (comment_diff_hunk p)
  /\ get_path payload ["comment"; "position"] = Ok (comment_position p)
  /\ get_path payload ["comment"; "id"] = Ok (comment_id p)
  /\ login_of payload "comment" (reviewer_login p)
  /\ payload_of payload p.

(** The two kinds of writes. *)
Definition is_comment (ev : event) : bool :=
  match ev with ECreateComment _ _ _ _ _ => true | _ => false end.

Definition is_reply (ev : event) : bool :=
  match ev with ECreateReply _ _ _ _ _ _ => true | _ => false end.

(** A delivery on which a handler acts: the sender is no bot, the text
    at [payload.item.body] is not blank, the pull request can be read. *)
Definition actionable (payload : value) (item : string) : Prop :=
  isFromBot payload = Ok false
  /\ (exists text, get_path payload [item; "body"] = Ok text /\ is_text text)
  /\ exists owner repoName prNumber baseSha headSha,
       about payload owner repoName prNumber baseSha headSha.

(** ** Sample deliveries *)

(** A listed file. *)
Definition listed_file (name st : string) : obj :=
  {[ "filename" := str name; "status" := str st;
     "additions" := VNum 1; "deletions" := VNum 0; "changes" := VNum 1;
     "patch" := str "@@ -0,0 +1 @@" ]}.

(** A pull request that adds [a.js], removes [b.js], changes [c.js] and
    renames [old.js] to [d.js]. *)
Definition four_files : list obj :=
  [ listed_file "a.js" "added"; listed_file "b.js" "removed";
    listed_file "c.js" "modified";
    <["previous_filename" := str "old.js"]> (listed_file "d.js" "renamed") ].

(** Listings of 100 and 150 files. *)
Definition many_files (n : nat) : list obj :=
  repeat (listed_file "src/a.js" "modified") n.

(** A world where everything works: the pull request has the files [L],
    every path is a file with the content [content], already text, and
    the backend answers with [comment]. *)
Definition healthy (L : list obj) (content comment : value) : World :=
  {| env_BACKEND_URL := Some (lit "http://localhost:8000/analyze");
     listFiles := fun _ _ _ _ per_page page => Ok (page_of L per_page page);
     getContent := fun _ _ _ _ _ =>
       Ok (VObj {[ "content" := content; "encoding" := str "utf8" ]});
     axios_post := fun _ _ _ => Ok (VObj {[ "comment" := comment ]});
     createComment := fun _ _ _ _ _ => Ok tt;
     createReplyForReviewComment := fun _ _ _ _ _ _ => Ok tt;
     Buffer_decode := fun content _ =>
       match content with VStr s => Ok s | _ => Throw TypeError end |}.

(** The same world with GitHub down: every call to it is rejected. *)
Definition github_down (L : list obj) (content comment : value) : World :=
  {| env_BACKEND_URL := env_BACKEND_URL (healthy L content comment);
     listFiles := fun _ _ _ _ _ _ => Throw (RequestError 502);
     getContent := fun _ _ _ _ _ => Throw (RequestError 404);
     axios_post := axios_post (healthy L content comment);
     createComment := fun _ _ _ _ _ => Throw (RequestError 502);
     createReplyForReviewComment := fun _ _ _ _ _ _ => Throw (RequestError 502);
     Buffer_decode := Buffer_decode (healthy L content comment) |}.

(** The same world where only the content lookups are rejected. *)
Definition contents_down (L : list obj) (content comment : value) : World :=
  {| env_BACKEND_URL := env_BACKEND_URL (healthy L content comment);
     listFiles := listFiles (healthy L content comment);
     getContent := fun _ _ _ _ _ => Throw (RequestError 404);
     axios_post := axios_post (healthy L content comment);
     createComment := createComment (healthy L content comment);
     createReplyForReviewComment :=
       createReplyForReviewComment (healthy L content comment);
     Buffer_decode := Buffer_decode (healthy L content comment) |}.

(** The same world without a [BACKEND_URL]. *)
Definition no_endpoint (L : list obj) (content comment : value) : World :=
  {| env_BACKEND_URL := None;
     listFiles := listFiles (healthy L content comment);
     getContent := getContent (healthy L content comment);
     axios_post := axios_post (healthy L content comment);
     createComment := createComment (healthy L content comment);
     createReplyForReviewComment :=
       createReplyForReviewComment (healthy L content comment);
     Buffer_decode := Buffer_decode (healthy L content comment) |}.

(** A payload with nothing in it. *)
Definition blank_payload : BackendPayload :=
  {| kind := VNull; review_body := VNull; review_state := VNull;
     comment_body := VNull; comment_path := VNull;
     comment_diff_hunk := VNull; comment_position := VNull;
     comment_id := VNull; reviewer_login := VNull;
     pr_number := VNull; pr_title := VNull; pr_body := VNull;
     pr_author_login := VNull; repo_full_name := VNull;
     repo_owner := VNull; repo_name := VNull; files := [] |}.

(** A webhook payload with the parts both handlers read. *)
Definition delivery (sender : value) (text : value) : value :=
  VObj {[ "sender" := sender;
          "review" := VObj {[ "body" := text; "state" := str "approved";
                              "user" := VObj {[ "login" := str "alice" ]} ]};
          "comment" := VObj {[ "body" := text; "path" := str "src/a.js";
                               "position" := VNum 5; "id" := VNum 11;
                               "user" := VObj {[ "login" := str "alice" ]} ]};
          "pull_request" :=
            VObj {[ "number" := VNum 7; "title" := str "Add a";
                    "base" := VObj {[ "sha" := str "base" ]};
                    "head" := VObj {[ "sha" := str "head" ]};
                    "user" := VObj {[ "login" := str "bob" ]} ]};
          "repository" :=
            VObj {[ "name" := str "repo"; "full_name" := str "org/repo";
                    "owner" := VObj {[ "login" := str "org" ]} ]} ]}.

Definition human : value := VObj {[ "login" := str "alice"; "type" := str "User" ]}.
Definition dependabot : value :=
  VObj {[ "login" := str "dependabot[bot]"; "type" := str "Bot" ]}.

(** * Properties *)

(** ** Text *)

Lemma trim_start_nil s : trim_start s = [] <-> blank s.
Proof.
  unfold blank. induction s as [|c s IH]; simpl.
  - split; auto.
  - destruct (is_white_space c) eqn:Hc.
    + rewrite IH. split.
      * intros Hs. by constructor.
      * by inversion 1.
    + split; [discriminate|]. inversion 1; congruence.
Qed.

Lemma trim_start_blank s : blank (trim_start s) -> trim_start s = [].
Proof.
  induction s as [|c s IH]; simpl; [done|].
  destruct (is_white_space c) eqn:Hc; [done|].
  inversion 1; congruence.
Qed.

(** [s.trim()] is the empty string exactly when [s] holds only white
    space. *)
Lemma trim_nil s : trim s = [] <-> blank s.
Proof.
  unfold trim. split.
  - intros H. apply (f_equal (@rev N)) in H. rewrite rev_involutive in H.
    simpl in H. apply trim_start_nil in H.
    apply trim_start_nil, trim_start_blank.
    unfold blank in *. by apply Forall_rev in H; rewrite rev_involutive in H.
  - intros H. apply trim_start_nil in H. by rewrite H.
Qed.

(** [endsWith] holds exactly when the suffix closes the string. *)
Lemma endsWith_spec s suffix :
  endsWith s suffix = true <-> exists p, s = p ++ suffix.
Proof.
  unfold endsWith. split.
  - destruct (Nat.leb_spec (length suffix) (length s)); [|discriminate].
    intros Heq%bool_decide_eq_true.
    exists (firstn (length s - length suffix) s).
    set (n := (length s - length suffix)%nat) in *.
    rewrite <- Heq. by rewrite firstn_skipn.
  - intros [p ->]. rewrite length_app.
    destruct (Nat.leb_spec (length suffix) (length p + length suffix)); [|lia].
    apply bool_decide_eq_true.
    replace (length p + length suffix - length suffix)%nat with (length p) by lia.
    apply drop_app_length.
Qed.

Lemma strict_eq_lit_true v s : strict_eq_lit v s = true <-> v = str s.
Proof.
  unfold strict_eq_lit, str. destruct v; try (split; [discriminate|congruence]).
  rewrite bool_decide_eq_true. split; congruence.
Qed.

(** ** Property reads *)

Lemma get_truthy v k : truthy v = true -> exists x, get v k = Ok x.
Proof. destruct v; simpl; try discriminate; eauto. Qed.

Lemma get_twice v k x k' : get v k = Ok x -> exists y, get v k' = Ok y.
Proof. destruct v; simpl; try discriminate; eauto. Qed.

(** ** Running computations *)

Lemma bind_done {A B} (m : M A) (k : A -> M B) h a evs :
  m h = (Done a, evs) ->
  bind m k h = (fst (k a (h ++ evs)), evs ++ snd (k a (h ++ evs))).
Proof. unfold bind. intros ->. by destruct (k a (h ++ evs)). Qed.

Lemma try_catch_done {A} (body : M A) handler h a evs :
  body h = (Done a, evs) -> try_catch body handler h = (Done a, evs).
Proof. unfold try_catch. by intros ->. Qed.

Section Rules.

Context {A B : Type}.
Implicit Types (P : event -> Prop).

Lemma finishes_ret (a : A) : finishes (ret a).
Proof. by intros h. Qed.

Lemma finishes_lift (r : result A) : finishes (lift r).
Proof. intros h. by destruct r. Qed.

Lemma finishes_log lvl msg ctx : finishes (log lvl msg ctx).
Proof. by intros h. Qed.

Lemma finishes_await (answer : list event -> result A) ev :
  finishes (await answer ev).
Proof. intros h. unfold await. simpl. by destruct (answer h). Qed.

Lemma finishes_bind (m : M A) (k : A -> M B) :
  finishes m -> (forall a, finishes (k a)) -> finishes (bind m k).
Proof.
  intros Hm Hk h. unfold bind. specialize (Hm h).
  destruct (m h) as [[a|e|] evs]; simpl in *; try done.
  specialize (Hk a (h ++ evs)). by destruct (k a (h ++ evs)).
Qed.

Lemma finishes_try_catch (body : M A) handler :
  finishes body -> (forall e, finishes (handler e)) ->
  finishes (try_catch body handler).
Proof.
  intros Hb Hh h. unfold try_catch. specialize (Hb h).
  destruct (body h) as [[a|e|] evs]; simpl in *; try done.
  specialize (Hh e (h ++ evs)). by destruct (handler e (h ++ evs)).
Qed.

Lemma emits_ret P (Q : A -> Prop) a : Q a -> emits P Q (ret a).
Proof. intros Ha h. split; [constructor|]. simpl. congruence. Qed.

Lemma emits_lift P (Q : A -> Prop) r :
  (forall a, r = Ok a -> Q a) -> emits P Q (lift r).
Proof.
  intros Hr h. split; [constructor|]. destruct r; simpl; [|done].
  intros ? [= <-]. auto.
Qed.

Lemma emits_out_of_fuel P (Q : A -> Prop) : emits P Q out_of_fuel.
Proof. intros h. split; [constructor|done]. Qed.

Lemma emits_await P (Q : A -> Prop) answer ev :
  (forall r, P (ev r)) -> (forall h a, answer h = Ok a -> Q a) ->
  emits P Q (await answer ev).
Proof.
  intros Hev Hq h. unfold await. simpl. split; [by repeat constructor|].
  destruct (answer h) eqn:E; [|done]. intros ? [= <-]. eauto.
Qed.

Lemma emits_bind P (Q : A -> Prop) (R : B -> Prop) m k :
  emits P Q m -> (forall a, Q a -> emits P R (k a)) -> emits P R (bind m k).
Proof.
  intros Hm Hk h. unfold bind. destruct (Hm h) as [Hev Hq].
  destruct (m h) as [[a|e|] evs]; simpl in *; try done.
  destruct (Hk a (Hq a eq_refl) (h ++ evs)) as [Hev' Hr].
  destruct (k a (h ++ evs)) as [o evs']. simpl in *.
  split; [by apply Forall_app|done].
Qed.

Lemma emits_try_catch P (Q : A -> Prop) body handler :
  emits P Q body -> (forall e, emits P Q (handler e)) ->
  emits P Q (try_catch body handler).
Proof.
  intros Hb Hh h. unfold try_catch. destruct (Hb h) as [Hev Hq].
  destruct (body h) as [[a|e|] evs]; simpl in *; try done.
  destruct (Hh e (h ++ evs)) as [Hev' Hr].
  destruct (handler e (h ++ evs)) as [o evs']. simpl in *.
  split; [by apply Forall_app|done].
Qed.

Lemma emits_weaken P P' (Q Q' : A -> Prop) m :
  (forall e, P e -> P' e) -> (forall a, Q a -> Q' a) ->
  emits P Q m -> emits P' Q' m.
Proof.
  intros HP HQ Hm h. destruct (Hm h) as [Hev Hq]. split; [|by auto].
  eapply Forall_impl; eauto.
Qed.

End Rules.

Lemma emits_log P (Q : unit -> Prop) lvl msg ctx :
  P (ELog lvl msg ctx) -> Q tt -> emits P Q (log lvl msg ctx).
Proof. intros HP HQ h. split; [by repeat constructor|]. by intros []. Qed.

(** ** The bot filter *)

(** The login of a webhook sender is a string.  On a payload that breaks
    this (a login that is truthy and not a string) there is no
    [endsWith] to call, and [isFromBot] raises. *)
Lemma isFromBot_login_not_text (payload sender type login : value) :
  get payload "sender" = Ok sender -> truthy sender = true ->
  get sender "type" = Ok type -> type <> str "Bot" ->
  get sender "login" = Ok login -> truthy login = true ->
  (forall s, login <> VStr s) ->
  isFromBot payload = Throw TypeError.
Proof.
  intros Hs Ht Hty Hbot Hl Hlt Hns. unfold isFromBot.
  rewrite Hs, Ht, Hty. cbn [negb].
  destruct (strict_eq_lit type "Bot") eqn:E.
  { by apply strict_eq_lit_true in E. }
  rewrite Hl, Hlt. cbn [negb]. destruct login; try done.
  by destruct (Hns s).
Qed.

(** C6, as the code has it: [isFromBot] is [false] without a sender,
    [true] for a sender of type ["Bot"], [true] for a sender whose login
    ends with ["[bot]"], and [false] for every other sender whose login
    is absent (falsy) or a string; for a sender of another type whose
    login is truthy and not a string it does not answer: it raises a
    [TypeError]. *)
Theorem isFromBot_cases (payload sender : value) :
  get payload "sender" = Ok sender ->
  (truthy sender = false -> isFromBot payload = Ok false)
  /\ (truthy sender = true -> get sender "type" = Ok (str "Bot") ->
      isFromBot payload = Ok true)
  /\ (forall p, truthy sender = true ->
      get sender "login" = Ok (VStr (p ++ lit "[bot]")) ->
      isFromBot payload = Ok true)
  /\ (forall type login, truthy sender = true ->
      get sender "type" = Ok type -> type <> str "Bot" ->
      get sender "login" = Ok login ->
      (truthy login = false
       \/ exists s, login = VStr s /\ ~ exists p, s = p ++ lit "[bot]") ->
      isFromBot payload = Ok false)
  /\ (forall type login, truthy sender = true ->
      get sender "type" = Ok type -> type <> str "Bot" ->
      get sender "login" = Ok login -> truthy login = true ->
      (forall s, login <> VStr s) ->
      isFromBot payload = Throw TypeError).
Proof.
  intros Hs. split; [|split; [|split; [|split]]];
    [| | | |intros type login Ht Hty Hbot Hl Hlt Hns;
            by apply (isFromBot_login_not_text payload sender type login)].
  all: unfold isFromBot; rewrite Hs.
  - by intros ->.
  - intros -> ->. cbn [negb].
    by rewrite (proj2 (strict_eq_lit_true (str "Bot") "Bot") eq_refl).
  - intros p Ht Hl. rewrite Ht. cbn [negb].
    destruct (get_twice _ _ _ "type" Hl) as [ty ->].
    destruct (strict_eq_lit ty "Bot"); [done|]. rewrite Hl.
    assert (Hends : endsWith (p ++ lit "[bot]") (lit "[bot]") = true)
      by (apply endsWith_spec; eauto).
    assert (Htr : truthy (VStr (p ++ lit "[bot]")) = true) by (by destruct p).
    rewrite Htr. cbn [negb call_endsWith]. by rewrite Hends.
  - intros ty login -> -> Hty ->. simpl.
    destruct (strict_eq_lit ty "Bot") eqn:E.
    { by apply strict_eq_lit_true in E. }
    intros [->|(s & -> & Hn)]; [done|].
    destruct (truthy (VStr s)); [|done]. simpl.
    destruct (endsWith s (lit "[bot]")) eqn:E'; [|done].
    by apply endsWith_spec in E'.
Qed.

(** ** The content fetcher *)

Section Fetcher.

Variable w : World.
Variables owner repo path ref : value.

Local Abbreviation fetch_log e :=
  (ELog Error "Failed to fetch file content from GitHub" (CtxFetch e path ref)).
Local Abbreviation fetched r := (EGetContent owner repo path ref r).

(** Every run of [getFileContent]: one request, then either the decoded
    text, or [null], or the log entry of the error and [null]. *)
Lemma getFileContent_run h :
  let r := getContent w h owner repo path ref in
  (exists s, getFileContent w owner repo path ref h = (Done (VStr s), [fetched r]))
  \/ getFileContent w owner repo path ref h = (Done VNull, [fetched r])
  \/ exists e, getFileContent w owner repo path ref h
               = (Done VNull, [fetched r; fetch_log e]).
Proof.
  intros r. unfold getFileContent, try_catch, bind, await, lift, ret, log.
  fold r. destruct r as [data|e]; simpl; [|eauto].
  destruct (isArray data); simpl; [eauto|].
  destruct (get data "content") as [content|e]; simpl; [|eauto].
  destruct (truthy content); simpl; [|eauto].
  destruct (get data "encoding") as [enc|e]; simpl; [|eauto].
  destruct (Buffer_decode w content _) as [text|e]; simpl; eauto.
Qed.

Lemma getFileContent_Throw h e :
  getContent w h owner repo path ref = Throw e ->
  getFileContent w owner repo path ref h
  = (Done VNull, [fetched (Throw e); fetch_log e]).
Proof.
  intros H. unfold getFileContent, try_catch, bind, await, lift, ret, log.
  by rewrite H.
Qed.

Lemma getFileContent_array h l :
  getContent w h owner repo path ref = Ok (VArr l) ->
  getFileContent w owner repo path ref h = (Done VNull, [fetched (Ok (VArr l))]).
Proof.
  intros H. unfold getFileContent, try_catch, bind, await, lift, ret, log.
  by rewrite H.
Qed.

Lemma getFileContent_no_content h data content :
  getContent w h owner repo path ref = Ok data ->
  get data "content" = Ok content -> truthy content = false ->
  getFileContent w owner repo path ref h = (Done VNull, [fetched (Ok data)]).
Proof.
  intros H Hc Ht. unfold getFileContent, try_catch, bind, await, lift, ret, log.
  rewrite H. simpl. destruct (isArray data); [done|].
  rewrite Hc. simpl. by rewrite Ht.
Qed.

(** C7: [getFileContent] never throws: it always returns, a text or
    [null]; a rejected request is logged with [path] and [ref] and gives
    [null]; a directory listing and an entry without content give [null]
    with no error. *)
Theorem getFileContent_never_throws h :
  let r := getContent w h owner repo path ref in
  (exists v evs,
      getFileContent w owner repo path ref h = (Done v, evs) /\ is_content v)
  /\ (forall e, r = Throw e ->
      getFileContent w owner repo path ref h
      = (Done VNull, [fetched (Throw e); fetch_log e]))
  /\ (forall l, r = Ok (VArr l) ->
      getFileContent w owner repo path ref h
      = (Done VNull, [fetched (Ok (VArr l))]))
  /\ (forall data content, r = Ok data ->
      get data "content" = Ok content -> truthy content = false ->
      getFileContent w owner repo path ref h
      = (Done VNull, [fetched (Ok data)])).
Proof.
  intros r. repeat split.
  - destruct (getFileContent_run h) as [[s H]|[H|[e H]]];
      eexists _, _; (split; [exact H|]); try (by left). right. eauto.
  - apply getFileContent_Throw.
  - apply getFileContent_array.
  - apply getFileContent_no_content.
Qed.

(** C9: an empty file (a file entry whose [content] is the empty string)
    is reported as [null], not as the empty text. *)
Theorem getFileContent_empty_file h (o : obj) :
  getContent w h owner repo path ref = Ok (VObj o) ->
  o !! "content" = Some (str "") ->
  getFileContent w owner repo path ref h
  = (Done VNull, [fetched (Ok (VObj o))]).
Proof.
  intros H Hc. eapply getFileContent_no_content; eauto.
  simpl. unfold prop. by rewrite Hc.
Qed.

End Fetcher.

(** ** The collector *)

Lemma content_requests_app evs evs' :
  content_requests (evs ++ evs') = content_requests evs ++ content_requests evs'.
Proof. apply flat_map_app. Qed.

Lemma listings_app evs evs' : listings (evs ++ evs') = listings evs ++ listings evs'.
Proof. apply flat_map_app. Qed.

Lemma listed_app evs evs' : listed (evs ++ evs') = listed evs ++ listed evs'.
Proof. apply flat_map_app. Qed.

Lemma listing_failures_app evs evs' :
  listing_failures (evs ++ evs') = listing_failures evs ++ listing_failures evs'.
Proof. apply flat_map_app. Qed.

Lemma fetch_events_no_listing evs :
  Forall fetch_event evs ->
  listings evs = [] /\ listed evs = [] /\ listing_failures evs = [].
Proof.
  induction 1 as [|ev evs Hev _ (IH1 & IH2 & IH3)]; [done|].
  destruct ev; try discriminate Hev; simpl; auto.
Qed.

Lemma page_sizes_app evs evs' :
  page_sizes (evs ++ evs') = page_sizes evs ++ page_sizes evs'.
Proof. apply flat_map_app. Qed.

Lemma fetch_events_no_page evs : Forall fetch_event evs -> page_sizes evs = [].
Proof.
  induction 1 as [|ev evs Hev _ IH]; [done|].
  destruct ev; try discriminate Hev; simpl; auto.
Qed.

Lemma await_run {A} (answer : list event -> result A) ev h :
  await answer ev h
  = (match answer h with Ok a => Done a | Throw e => Raised e end,
     [ev (answer h)]).
Proof. reflexivity. Qed.

Section Collector.

Variable w : World.
Variables owner repo prNumber baseSha headSha : value.

(** One optional lookup of [collect_file]. *)
Lemma lookup_run (skip : bool) (path ref : value) h :
  exists v evs,
    (if skip then ret VNull else getFileContent w owner repo path ref) h
    = (Done v, evs)
    /\ (skip = true -> v = VNull) /\ is_content v
    /\ content_requests evs = (if skip then [] else [(owner, repo, path, ref)])
    /\ Forall fetch_event evs.
Proof.
  destruct skip.
  - exists VNull, []. repeat split; auto. by left.
  - destruct (getFileContent_run w owner repo path ref h) as [[s H]|[H|[e H]]];
      rewrite H; eexists _, _; (split; [reflexivity|]);
      repeat split; try done; try (by left); try (by right; eauto);
      by repeat constructor.
Qed.

Lemma collect_file_run (f : obj) h :
  exists cf evs,
    collect_file w owner repo baseSha headSha f h = (Done cf, evs)
    /\ entry_for f cf
    /\ content_requests evs = expected_requests owner repo baseSha headSha f
    /\ Forall fetch_event evs.
Proof.
  unfold collect_file, expected_requests.
  destruct (lookup_run (strict_eq_lit (prop f "status") "added")
              (prop f "filename") baseSha h)
    as (b & evs1 & Hb & Hbn & Hbc & Hbr & Hbe).
  destruct (lookup_run (strict_eq_lit (prop f "status") "removed")
              (prop f "filename") headSha (h ++ evs1))
    as (hd & evs2 & Hh & Hhn & Hhc & Hhr & Hhe).
  rewrite (bind_done _ _ _ _ _ Hb), (bind_done _ _ _ _ _ Hh). simpl.
  eexists _, _. split; [reflexivity|]. rewrite app_nil_r.
  split; [|split].
  - unfold entry_for, ChangedFile_inv. simpl. repeat split; auto.
    + intros E. apply Hbn. by apply strict_eq_lit_true.
    + intros E. apply Hhn. by apply strict_eq_lit_true.
  - by rewrite content_requests_app, Hbr, Hhr.
  - by apply Forall_app.
Qed.

Lemma for_files_run (data : list obj) (files : list ChangedFile) h :
  exists entries evs,
    for_files w owner repo baseSha headSha data files h
    = (Done (files ++ entries), evs)
    /\ Forall2 entry_for data entries
    /\ content_requests evs
       = flat_map (expected_requests owner repo baseSha headSha) data
    /\ Forall fetch_event evs.
Proof.
  revert files h. induction data as [|f data IH]; intros files h; simpl.
  - exists [], []. rewrite app_nil_r. repeat split; constructor.
  - destruct (collect_file_run f h) as (cf & evs1 & Hcf & Hf & Hr & He).
    destruct (IH (files ++ [cf]) (h ++ evs1))
      as (entries & evs2 & Hrest & Hfs & Hrs & Hes).
    rewrite (bind_done _ _ _ _ _ Hcf), Hrest. simpl.
    exists (cf :: entries), (evs1 ++ evs2).
    rewrite <- app_assoc. simpl. repeat split.
    + by constructor.
    + by rewrite content_requests_app, Hr, Hrs.
    + by apply Forall_app.
Qed.

(** Every run of the pagination loop, in any world and with any fuel:
    the entries returned are those assembled for the files listed, in
    order; the content lookups are those of the files listed; the loop
    raises exactly when a listing fails, with the error of that listing. *)
Lemma getPrFiles_loop_run fuel page files h o evs :
  getPrFiles_loop w fuel owner repo prNumber baseSha headSha page files h
  = (o, evs) ->
  content_requests evs
  = flat_map (expected_requests owner repo baseSha headSha) (listed evs)
  /\ listing_failures evs = match o with Raised e => [e] | _ => [] end
  /\ forall out, o = Done out ->
     exists entries, out = files ++ entries
                     /\ Forall2 entry_for (listed evs) entries.
Proof.
  revert page files h o evs.
  induction fuel as [|fuel IH]; intros page files h o evs; simpl.
  { intros [= <- <-]. repeat split; [done..|discriminate]. }
  unfold bind at 1. rewrite await_run.
  destruct (listFiles w h owner repo prNumber 100 page) as [data|e]; simpl;
    [|intros [= <- <-]; repeat split; [done..|discriminate]].
  destruct (length data =? 0)%nat eqn:E0; simpl.
  { apply Nat.eqb_eq, length_zero_iff_nil in E0. subst data.
    intros [= <- <-]. simpl. repeat split.
    intros out [= <-]. exists []. by rewrite app_nil_r. }
  set (h1 := h ++ _).
  destruct (for_files_run data files h1)
    as (entries & evs1 & Hrun & Hfs & Hrs & Hes).
  destruct (fetch_events_no_listing _ Hes) as (_ & Hl1 & Hf1).
  rewrite (bind_done _ _ _ _ _ Hrun).
  destruct (length data <? 100)%nat; simpl.
  - intros [= <- <-]. simpl.
    rewrite !app_nil_r, Hl1, app_nil_r. repeat split; auto.
    intros out [= <-]. eauto.
  - destruct (getPrFiles_loop _ _ _ _ _ _ _ _ _ _) as [o2 evs2] eqn:Hloop.
    apply IH in Hloop as (IHr & IHf & IHo). simpl.
    intros [= <- <-]. simpl.
    rewrite content_requests_app, listed_app, listing_failures_app.
    rewrite Hl1, Hf1, Hrs, IHr, IHf. simpl. rewrite flat_map_app.
    repeat split; auto.
    intros out Ho. destruct (IHo out Ho) as (entries2 & -> & H2).
    exists (entries ++ entries2). rewrite app_assoc. split; [done|].
    by apply Forall2_app.
Qed.

(** Every run of the loop, in any world: the listings ask for pages of
    100, one page after the other; when the loop returns, every page but
    the last held 100 entries or more and the last held fewer. *)
Lemma getPrFiles_loop_pages fuel page files h o evs :
  getPrFiles_loop w fuel owner repo prNumber baseSha headSha page files h
  = (o, evs) ->
  listings evs = map (fun q => (100, q)) (seq page (length (listings evs)))
  /\ forall out, o = Done out ->
     exists full last,
       page_sizes evs = full ++ [last]
       /\ Forall (fun n => 100 <= n) full /\ last < 100.
Proof.
  revert page files h o evs.
  induction fuel as [|fuel IH]; intros page files h o evs; simpl.
  { intros [= <- <-]. split; [done|discriminate]. }
  unfold bind at 1. rewrite await_run.
  destruct (listFiles w h owner repo prNumber 100 page) as [data|e]; simpl;
    [|intros [= <- <-]; split; [done|discriminate]].
  destruct (length data =? 0)%nat eqn:E0; simpl.
  { apply Nat.eqb_eq in E0. intros [= <- <-]. simpl. rewrite E0.
    split; [done|]. intros out _. exists [], 0. repeat split; [constructor|lia]. }
  set (h1 := h ++ _).
  destruct (for_files_run data files h1)
    as (entries & evs1 & Hrun & _ & _ & Hes).
  destruct (fetch_events_no_listing _ Hes) as (Hl1 & _).
  pose proof (fetch_events_no_page _ Hes) as Hp1.
  rewrite (bind_done _ _ _ _ _ Hrun).
  destruct (Nat.ltb_spec (length data) 100) as [Hlt|Hge]; simpl.
  - intros [= <- <-]. simpl.
    rewrite !app_nil_r, Hl1, Hp1. split; [done|].
    intros out _. exists [], (length data). repeat split; [constructor|lia].
  - destruct (getPrFiles_loop _ _ _ _ _ _ _ _ _ _) as [o2 evs2] eqn:Hloop.
    apply IH in Hloop as (IHl & IHo). simpl.
    intros [= <- <-]. simpl.
    rewrite listings_app, page_sizes_app, Hl1, Hp1. simpl. split.
    + rewrite IHl at 1. by rewrite Nat.add_1_r.
    + intros out Ho. destruct (IHo out Ho) as (full & last & -> & Hfull & Hlast).
      exists (length data :: full), last. repeat split; [|done].
      by constructor.
Qed.

Lemma entry_for_inv data entries :
  Forall2 entry_for data entries -> Forall ChangedFile_inv entries.
Proof.
  induction 1 as [|f cf data entries Hf _ IH]; constructor; [|done].
  apply Hf.
Qed.

(** C1: in every entry returned by [getPrFiles], of whatever page, status
    ["added"] comes with a [null] [base_content] and status ["removed"]
    with a [null] [head_content]. *)
Theorem getPrFiles_added_removed_null fuel h out evs :
  getPrFiles w fuel owner repo prNumber baseSha headSha h = (Done out, evs) ->
  Forall (fun cf =>
            (status cf = str "added" -> base_content cf = VNull)
            /\ (status cf = str "removed" -> head_content cf = VNull)) out.
Proof.
  intros Hrun. apply getPrFiles_loop_run in Hrun as (_ & _ & Hout).
  destruct (Hout out eq_refl) as (entries & -> & Hentries).
  apply (entry_for_inv _ _ Hentries).
Qed.

Lemma collect_file_previous_filename (f : obj) (v : value) h :
  collect_file w owner repo baseSha headSha (<["previous_filename" := v]> f) h
  = collect_file w owner repo baseSha headSha f h.
Proof.
  unfold collect_file, prop. by rewrite !lookup_insert_ne.
Qed.

(** C10: the content lookups of a run are, file by file in the order
    listed, a lookup of the entry's [filename] at [baseSha] (unless the
    entry is added) and one of the same [filename] at [headSha] (unless
    it is removed); for a renamed entry both lookups use [filename], and
    [previous_filename] has no influence on what is done for an entry. *)
Theorem getPrFiles_lookups_use_filename fuel h :
  let evs := snd (getPrFiles w fuel owner repo prNumber baseSha headSha h) in
  content_requests evs
  = flat_map (fun f =>
                (if strict_eq_lit (prop f "status") "added" then []
                 else [(owner, repo, prop f "filename", baseSha)])
                ++ (if strict_eq_lit (prop f "status") "removed" then []
                    else [(owner, repo, prop f "filename", headSha)]))
      (listed evs)
  /\ (forall f, prop f "status" = str "renamed" ->
      expected_requests owner repo baseSha headSha f
      = [(owner, repo, prop f "filename", baseSha);
         (owner, repo, prop f "filename", headSha)])
  /\ (forall f v h',
      collect_file w owner repo baseSha headSha
        (<["previous_filename" := v]> f) h'
      = collect_file w owner repo baseSha headSha f h').
Proof.
  split; [|split].
  - unfold getPrFiles.
    destruct (getPrFiles_loop _ _ _ _ _ _ _ _ _ _) as [o evs] eqn:Hrun.
    by apply getPrFiles_loop_run in Hrun as (Hreq & _).
  - intros f Hst. unfold expected_requests. by rewrite Hst.
  - apply collect_file_previous_filename.
Qed.

End Collector.

(** ** Pagination *)

Lemma page_of_length L per_page page :
  length (page_of L per_page page)
  = Nat.min per_page (length L - (page - 1) * per_page).
Proof. unfold page_of. by rewrite length_firstn, length_skipn. Qed.

Lemma div_100_step n : 100 <= n -> n / 100 = S ((n - 100) / 100).
Proof.
  intros Hn. replace n with ((n - 100) + 1 * 100) at 1 by lia.
  rewrite Nat.div_add by lia. lia.
Qed.

Section Pagination.

Variable w : World.
Variables owner repo prNumber baseSha headSha : value.
Variable L : list obj.
Hypothesis Hserves : serves w owner repo prNumber L.

Lemma getPrFiles_loop_serves fuel k files h :
  length (skipn (k * 100) L) / 100 < fuel ->
  exists entries evs,
    getPrFiles_loop w fuel owner repo prNumber baseSha headSha (S k) files h
    = (Done (files ++ entries), evs)
    /\ Forall2 entry_for (skipn (k * 100) L) entries
    /\ listings evs
       = map (fun p => (100, p))
           (seq (S k) (length (skipn (k * 100) L) / 100 + 1)).
Proof.
  revert k files h. induction fuel as [|fuel IH]; intros k files h Hfuel;
    [lia|].
  cbn [getPrFiles_loop]. unfold bind at 1. rewrite await_run, Hserves.
  unfold page_of. replace (S k - 1) with k by lia.
  set (rest := skipn (k * 100) L) in *. cbn beta iota.
  destruct (length (firstn 100 rest) =? 0)%nat eqn:E0.
  { apply Nat.eqb_eq in E0. rewrite length_firstn in E0.
    assert (rest = []) as -> by (apply length_zero_iff_nil; lia).
    exists []. eexists. rewrite app_nil_r. split; [reflexivity|].
    split; [constructor|done]. }
  set (h1 := h ++ _).
  destruct (for_files_run w owner repo baseSha headSha (firstn 100 rest) files h1)
    as (entries & evs1 & Hrun & Hfs & _ & Hes).
  destruct (fetch_events_no_listing _ Hes) as (Hl1 & _).
  rewrite (bind_done _ _ _ _ _ Hrun).
  destruct (Nat.ltb_spec (length (firstn 100 rest)) 100) as [Hlt|Hge];
    rewrite length_firstn in *.
  - exists entries. eexists. split; [reflexivity|].
    rewrite firstn_all2 in Hfs by lia. split; [done|].
    unfold ret. cbn [snd].
    rewrite app_nil_r, listings_app, Hl1, Nat.div_small by lia. done.
  - assert (Hlen : 100 <= length rest) by lia.
    assert (Hrest : skipn (S k * 100) L = skipn 100 rest).
    { unfold rest. rewrite skipn_skipn. f_equal; lia. }
    destruct (IH (S k) (files ++ entries) (h1 ++ evs1))
      as (entries2 & evs2 & Hrun2 & Hfs2 & Hl2).
    { rewrite Hrest, length_skipn. rewrite (div_100_step _ Hlen) in Hfuel. lia. }
    rewrite Nat.add_1_r, Hrun2. cbn [fst snd].
    exists (entries ++ entries2). eexists. rewrite (app_assoc files).
    split; [reflexivity|]. split.
    + rewrite <- (firstn_skipn 100 rest). rewrite <- Hrest.
      by apply Forall2_app.
    + rewrite !listings_app, Hl1, Hl2, Hrest, length_skipn.
      rewrite (div_100_step _ Hlen), !Nat.add_1_r. reflexivity.
Qed.

End Pagination.

(** ** Failures in the collector *)

Lemma content_answers_app evs evs' :
  content_answers (evs ++ evs') = content_answers evs ++ content_answers evs'.
Proof. apply flat_map_app. Qed.

Section Absorbing.

Variable w : World.
Variables owner repo prNumber baseSha headSha : value.

Lemma lookup_absorbs (skip : bool) (path ref : value) h :
  exists v evs r,
    (if skip then ret VNull else getFileContent w owner repo path ref) h
    = (Done v, evs)
    /\ null_if_failed r v
    /\ forall rest,
         take_answer skip (content_answers evs ++ rest) = (r, rest).
Proof.
  destruct skip.
  { exists VNull, [], None. split; [reflexivity|]. split; [by intros e|done]. }
  destruct (getContent w h owner repo path ref) as [data|e] eqn:Hr.
  - destruct (getFileContent_run w owner repo path ref h)
      as [[s H]|[H|[e H]]];
      rewrite Hr in H; rewrite H; eexists _, _, (Some (Ok data));
      (split; [reflexivity|]); (split; [by intros e'|]); done.
  - rewrite (getFileContent_Throw _ _ _ _ _ _ _ Hr).
    eexists _, _, (Some (Throw e)). split; [reflexivity|].
    split; [|done]. intros e' [= <-]. reflexivity.
Qed.

Lemma collect_file_absorbs (f : obj) h :
  exists cf evs rs,
    collect_file w owner repo baseSha headSha f h = (Done cf, evs)
    /\ absorbs cf rs
    /\ forall fs rest,
         deal (f :: fs) (content_answers evs ++ rest) = rs :: deal fs rest.
Proof.
  unfold collect_file.
  destruct (lookup_absorbs (strict_eq_lit (prop f "status") "added")
              (prop f "filename") baseSha h)
    as (b & evs1 & rb & Hb & Hnb & Htb).
  destruct (lookup_absorbs (strict_eq_lit (prop f "status") "removed")
              (prop f "filename") headSha (h ++ evs1))
    as (hd & evs2 & rh & Hh & Hnh & Hth).
  rewrite (bind_done _ _ _ _ _ Hb), (bind_done _ _ _ _ _ Hh). simpl.
  eexists _, _, (rb, rh). split; [reflexivity|]. split; [by split|].
  intros fs rest. rewrite app_nil_r, content_answers_app, <- app_assoc.
  by rewrite Htb, Hth.
Qed.

Lemma for_files_absorbs (data : list obj) (files : list ChangedFile) h :
  exists entries evs dealt,
    for_files w owner repo baseSha headSha data files h
    = (Done (files ++ entries), evs)
    /\ Forall2 absorbs entries dealt
    /\ forall fs rest,
         deal (data ++ fs) (content_answers evs ++ rest)
         = dealt ++ deal fs rest.
Proof.
  revert files h. induction data as [|f data IH]; intros files h.
  - exists [], [], []. rewrite app_nil_r. repeat split. constructor.
  - destruct (collect_file_absorbs f h) as (cf & evs1 & rs & Hcf & Hrs & Hd).
    destruct (IH (files ++ [cf]) (h ++ evs1))
      as (entries & evs2 & dealt & Hrest & Hall & Hdeal).
    cbn [for_files]. rewrite (bind_done _ _ _ _ _ Hcf), Hrest. cbn [fst snd].
    exists (cf :: entries), (evs1 ++ evs2), (rs :: dealt).
    rewrite <- app_assoc. split; [reflexivity|]. split; [by constructor|].
    intros fs rest. rewrite content_answers_app, <- app_assoc.
    rewrite <- app_comm_cons, Hd, Hdeal. reflexivity.
Qed.

Lemma fetch_events_not_listed evs :
  Forall fetch_event evs -> listed evs = [].
Proof. intros H. by destruct (fetch_events_no_listing _ H) as (_ & ? & _). Qed.

(** Every run of the loop that returns: each entry returned absorbed the
    failures of its own lookups. *)
Lemma getPrFiles_loop_absorbs fuel page files h out evs :
  getPrFiles_loop w fuel owner repo prNumber baseSha headSha page files h
  = (Done out, evs) ->
  exists entries,
    out = files ++ entries
    /\ Forall2 absorbs entries (deal (listed evs) (content_answers evs)).
Proof.
  revert page files h out evs.
  induction fuel as [|fuel IH]; intros page files h out evs; simpl;
    [discriminate|].
  unfold bind at 1. rewrite await_run.
  destruct (listFiles w h owner repo prNumber 100 page) as [data|e]; simpl;
    [|discriminate].
  destruct (length data =? 0)%nat eqn:E0; simpl.
  { apply Nat.eqb_eq, length_zero_iff_nil in E0. subst data.
    intros [= <- <-]. exists []. rewrite app_nil_r. split; [done|].
    constructor. }
  set (h1 := h ++ _).
  destruct (for_files_absorbs data files h1)
    as (entries & evs1 & dealt & Hrun & Hall & Hdeal).
  destruct (for_files_run w owner repo baseSha headSha data files h1)
    as (entries' & evs1' & Hrun' & _ & _ & Hes).
  rewrite Hrun in Hrun'. injection Hrun' as _ <-.
  pose proof (fetch_events_not_listed _ Hes) as Hl1.
  rewrite (bind_done _ _ _ _ _ Hrun).
  destruct (length data <? 100)%nat; simpl.
  - intros [= <- <-]. exists entries. split; [done|].
    rewrite app_nil_r.
    change (Forall2 absorbs entries
              (deal (data ++ listed evs1) (content_answers evs1))).
    pose proof (Hdeal [] []) as Hd. cbn [deal] in Hd.
    rewrite !app_nil_r in Hd. by rewrite Hl1, app_nil_r, Hd.
  - destruct (getPrFiles_loop _ _ _ _ _ _ _ _ _ _) as [o2 evs2] eqn:Hloop.
    simpl. intros [= -> <-].
    apply IH in Hloop as (entries2 & -> & Hall2).
    exists (entries ++ entries2). rewrite app_assoc. split; [done|].
    change (Forall2 absorbs (entries ++ entries2)
              (deal (data ++ listed (evs1 ++ evs2))
                 (content_answers (evs1 ++ evs2)))).
    rewrite listed_app, Hl1, content_answers_app. cbn [app].
    rewrite Hdeal. by apply Forall2_app.
Qed.

End Absorbing.

(** C8: [getPrFiles] raises exactly when a listing fails, and then with
    the error of that listing: a failed listing is never caught, and a
    failed content lookup never makes it raise.  A failed lookup is
    absorbed: the content it was to give is [null] in the entry of its
    file; and the run goes on: every file listed has its lookups and its
    entry, and where the listing is served the collector returns an
    entry for each file whatever the lookups answer. *)
Theorem getPrFiles_error_policy (w : World)
    (owner repo prNumber baseSha headSha : value) (fuel : nat) h :
  let r := getPrFiles w fuel owner repo prNumber baseSha headSha h in
  (forall e, In e (listing_failures (snd r)) -> fst r = Raised e)
  /\ (forall e, fst r = Raised e -> listing_failures (snd r) = [e])
  /\ content_requests (snd r)
     = flat_map (expected_requests owner repo baseSha headSha)
         (listed (snd r))
  /\ (forall out, fst r = Done out ->
      Forall2 entry_for (listed (snd r)) out
      /\ Forall2 absorbs out
           (deal (listed (snd r)) (content_answers (snd r))))
  /\ (forall L, serves w owner repo prNumber L -> length L / 100 < fuel ->
      exists out, fst r = Done out /\ Forall2 entry_for L out).
Proof.
  intros r. unfold r, getPrFiles.
  destruct (getPrFiles_loop _ _ _ _ _ _ _ _ _ _) as [o evs] eqn:Hrun.
  pose proof (getPrFiles_loop_run _ _ _ _ _ _ _ _ _ _ _ _ Hrun)
    as (Hreq & Hfail & Hout).
  cbn [fst snd]. split; [|split; [|split; [|split]]].
  - intros e. rewrite Hfail. destruct o; simpl; try done.
    by intros [->|[]].
  - intros e ->. exact Hfail.
  - exact Hreq.
  - intros out ->. destruct (Hout out eq_refl) as (entries & -> & Hentries).
    split; [done|].
    destruct (getPrFiles_loop_absorbs _ _ _ _ _ _ _ _ _ _ _ _ Hrun)
      as (entries' & Heq & Habs).
    simpl in Heq. by subst.
  - intros L Hserves Hfuel.
    destruct (getPrFiles_loop_serves w owner repo prNumber baseSha headSha L
                Hserves fuel 0 [] h)
      as (out & evs' & Hrun' & Hentries & _); [done|].
    change (skipn (0 * 100) L) with L in *.
    rewrite Hrun in Hrun'. injection Hrun' as -> _. eauto.
Qed.

(** C2: the collector asks for pages of 100, page 1, 2, ... in turn; it
    goes on after a page of 100 (or more) and stops at the first page
    with fewer, an empty one included; for a pull request whose listing
    is [L] it returns the entries of the whole of [L] in the order
    listed, after [|L| / 100 + 1] listings, all of a full page but the
    last: 100, 150 and 0 changed files cost 2, 2 and 1 listings and give
    100, 150 and 0 entries. *)
Theorem getPrFiles_pagination (w : World)
    (owner repo prNumber baseSha headSha : value) (fuel : nat) h :
  let r := getPrFiles w fuel owner repo prNumber baseSha headSha h in
  listings (snd r)
  = map (fun page => (100, page)) (seq 1 (length (listings (snd r))))
  /\ (forall out, fst r = Done out ->
      exists full last,
        page_sizes (snd r) = full ++ [last]
        /\ Forall (fun n => 100 <= n) full /\ last < 100)
  /\ (forall L, serves w owner repo prNumber L -> length L / 100 < fuel ->
      exists out,
        fst r = Done out
        /\ Forall2 entry_for L out
        /\ listings (snd r)
           = map (fun page => (100, page)) (seq 1 (length L / 100 + 1))
        /\ (forall page, 1 <= page <= length L / 100 ->
            length (page_of L 100 page) = 100)
        /\ length (page_of L 100 (length L / 100 + 1)) < 100
        /\ (length L = 100 ->
            length (listings (snd r)) = 2 /\ length out = 100)
        /\ (length L = 150 ->
            length (listings (snd r)) = 2 /\ length out = 150)
        /\ (length L = 0 ->
            length (listings (snd r)) = 1 /\ length out = 0)).
Proof.
  intros r. split; [|split].
  - unfold r, getPrFiles.
    destruct (getPrFiles_loop _ _ _ _ _ _ _ _ _ _) as [o evs] eqn:Hrun.
    by apply getPrFiles_loop_pages in Hrun as (Hl & _).
  - unfold r, getPrFiles.
    destruct (getPrFiles_loop _ _ _ _ _ _ _ _ _ _) as [o evs] eqn:Hrun.
    by apply getPrFiles_loop_pages in Hrun as (_ & Ho).
  - intros L Hserves Hfuel.
    destruct (getPrFiles_loop_serves w owner repo prNumber baseSha headSha L
                Hserves fuel 0 [] h)
      as (out & evs & Hrun & Hout & Hl); [done|].
    change (skipn (0 * 100) L) with L in *.
    assert (Hr : r = (Done out, evs)) by exact Hrun. rewrite Hr. cbn [fst snd].
    exists out. split; [done|]. split; [done|]. split; [done|].
    pose proof (Forall2_length _ _ _ Hout) as Hlen.
    pose proof (Nat.div_mod_eq (length L) 100) as Hdm.
    pose proof (Nat.mod_upper_bound (length L) 100) as Hmod.
    split; [|split].
    + intros page Hp. rewrite page_of_length. nia.
    + rewrite page_of_length.
      replace (length L / 100 + 1 - 1) with (length L / 100) by lia. lia.
    + rewrite Hl, length_map, length_seq, <- Hlen.
      split; [|split]; intros ->; split; reflexivity.
Qed.

(** ** The backend notifier *)

Section Notifier.

Variable w : World.
Variable payloadForBackend : BackendPayload.

Local Abbreviation sending :=
  (ELog Info "Sending payload to backend" (CtxPayload payloadForBackend)).

Lemma callBackend_unset h :
  truthy (backendUrl w) = false ->
  callBackend w payloadForBackend h
  = (Done VNull,
     [ELog Error "BACKEND_URL is not set in environment variables" NoCtx]).
Proof. intros H. unfold callBackend. by rewrite H. Qed.

(** Every run of [callBackend] returns, and emits log entries and at
    most one request. *)
Lemma callBackend_run h :
  exists v evs,
    callBackend w payloadForBackend h = (Done v, evs)
    /\ is_content v
    /\ Forall (fun ev => is_backend_call ev || is_log ev = true) evs.
Proof.
  unfold callBackend. destruct (truthy (backendUrl w)); simpl.
  2: { eexists _, _. split; [reflexivity|]. split; [by left|].
       by repeat constructor. }
  unfold try_catch, bind, await, lift, ret, log. simpl.
  destruct (axios_post w _ _ _) as [data|e]; simpl.
  2: { eexists _, _. split; [reflexivity|]. split; [by left|].
       by repeat constructor. }
  destruct (get data "comment") as [c|e]; simpl.
  2: { eexists _, _. split; [reflexivity|]. split; [by left|].
       by repeat constructor. }
  destruct (truthy c) eqn:Hc; simpl.
  2: { eexists _, _. split; [reflexivity|]. split; [by left|].
       by repeat constructor. }
  destruct c as [| | | |s| |]; simpl;
    try (eexists _, _; split; [reflexivity|]; split; [by left|];
         by repeat constructor).
  destruct (trim s); simpl;
    eexists _, _; (split; [reflexivity|]); (split; [|by repeat constructor]).
  - by left.
  - right. eauto.
Qed.


Lemma callBackend_comment h data s :
  truthy (backendUrl w) = true ->
  axios_post w (h ++ [sending]) (backendUrl w) payloadForBackend = Ok data ->
  get data "comment" = Ok (VStr s) -> ~ blank s ->
  callBackend w payloadForBackend h
  = (Done (VStr s),
     [sending; EPost (backendUrl w) payloadForBackend (Ok data)]).
Proof.
  intros Hurl Hpost Hc Hs. unfold callBackend. rewrite Hurl. simpl.
  unfold try_catch, bind, await, lift, ret, log. simpl.
  rewrite Hpost. simpl. rewrite Hc. simpl.
  assert (s <> []) by (intros ->; apply Hs; constructor).
  destruct s as [|c s]; [done|]. simpl.
  destruct (trim (c :: s)) eqn:E; [by apply trim_nil in E|done].
Qed.

Lemma callBackend_finishes : finishes (callBackend w payloadForBackend).
Proof.
  intros h. destruct (callBackend_run h) as (v & evs & -> & _). done.
Qed.


End Notifier.

(** ** The handlers *)

Lemma emits_bind_any {A B} (P : event -> Prop) (R : B -> Prop)
    (m : M A) (k : A -> M B) :
  emits P (fun _ => True) m -> (forall a, emits P R (k a)) ->
  emits P R (bind m k).
Proof. intros Hm Hk. eapply emits_bind; eauto. Qed.

Section Handlers.

Variable w : World.

Lemma getPrFiles_emits fuel owner repo prNumber baseSha headSha :
  emits read_event (fun _ => True)
    (getPrFiles w fuel owner repo prNumber baseSha headSha).
Proof.
  unfold getPrFiles. generalize 1 at 1. generalize (@nil ChangedFile).
  induction fuel as [|fuel IH]; intros files page; simpl.
  { apply emits_out_of_fuel. }
  apply emits_bind_any; [by apply emits_await|]. intros data.
  destruct (length data =? 0)%nat; [by apply emits_ret|].
  apply emits_bind_any.
  - intros h. split; [|done].
    destruct (for_files_run w owner repo baseSha headSha data files h)
      as (entries & evs & -> & _ & _ & Hevs). simpl.
    eapply Forall_impl; [exact Hevs|]. intros ev. unfold fetch_event, read_event.
    by destruct ev.
  - intros files'. destruct (length data <? 100)%nat; [by apply emits_ret|].
    apply IH.
Qed.

Lemma getPrFiles_loop_finishes n fuel owner repo prNumber baseSha headSha
    page files :
  pages_end w n -> n - page < fuel ->
  finishes (getPrFiles_loop w fuel owner repo prNumber baseSha headSha
              page files).
Proof.
  intros Hend. revert page files.
  induction fuel as [|fuel IH]; intros page files Hfuel h; [lia|]. simpl.
  unfold bind at 1. rewrite await_run.
  destruct (listFiles w h owner repo prNumber 100 page) as [data|e] eqn:Hlist;
    simpl; [|done].
  destruct (length data =? 0)%nat; [done|].
  set (h1 := h ++ _).
  destruct (for_files_run w owner repo baseSha headSha data files h1)
    as (entries & evs & Hrun & _).
  rewrite (bind_done _ _ _ _ _ Hrun). simpl.
  destruct (Nat.ltb_spec (length data) 100) as [Hlt|Hge]; [done|].
  assert (page < n).
  { destruct (decide (n <= page)) as [Hn|Hn]; [|lia].
    pose proof (Hend _ _ _ _ _ _ Hn Hlist). lia. }
  apply IH. lia.
Qed.

Lemma getPrFiles_finishes n fuel owner repo prNumber baseSha headSha :
  pages_end w n -> n - 1 < fuel ->
  finishes (getPrFiles w fuel owner repo prNumber baseSha headSha).
Proof. apply getPrFiles_loop_finishes. Qed.

Lemma and_get_finishes a k : finishes (and_get a k).
Proof. unfold and_get. destruct (truthy a); [apply finishes_lift|apply finishes_ret]. Qed.

Lemma and_get_emits P a k : emits P (fun _ => True) (and_get a k).
Proof.
  unfold and_get. destruct (truthy a); [by apply emits_lift|by apply emits_ret].
Qed.

Lemma call_failures_app evs evs' :
  call_failures (evs ++ evs') = call_failures evs ++ call_failures evs'.
Proof. apply flat_map_app. Qed.

Lemma quiet_no_failures evs : Forall quiet_event evs -> call_failures evs = [].
Proof.
  induction 1 as [|ev evs Hev _ IH]; [done|].
  destruct ev; try discriminate Hev; simpl; auto.
Qed.

Lemma propagates_quiet {A} (Q : A -> Prop) (m : M A) :
  emits quiet_event Q m -> propagates m.
Proof.
  intros Hm h e. destruct (Hm h) as [Hev _].
  by rewrite (quiet_no_failures _ Hev).
Qed.

Lemma propagates_bind {A B} (m : M A) (k : A -> M B) :
  propagates m -> (forall a, propagates (k a)) -> propagates (bind m k).
Proof.
  intros Hm Hk h e. unfold bind. specialize (Hm h e).
  destruct (m h) as [[a|e'|] evs]; simpl in *;
    try (intros Hin; specialize (Hm Hin); congruence).
  specialize (Hk a (h ++ evs) e). destruct (k a (h ++ evs)) as [o evs'].
  simpl in *. rewrite call_failures_app, in_app_iff.
  intros [Hin|Hin]; [by specialize (Hm Hin)|auto].
Qed.

Lemma propagates_await {A} (answer : list event -> result A) ev :
  (forall r e, In e (call_failures [ev r]) -> r = Throw e) ->
  propagates (await answer ev).
Proof.
  intros Hev h e. unfold await. simpl. intros Hin.
  apply Hev in Hin. by rewrite Hin.
Qed.

Lemma propagates_getPrFiles fuel owner repo prNumber baseSha headSha :
  propagates (getPrFiles w fuel owner repo prNumber baseSha headSha).
Proof.
  intros h e. destruct (getPrFiles_emits fuel owner repo prNumber baseSha headSha h)
    as [Hev _]. unfold getPrFiles in *.
  destruct (getPrFiles_loop _ _ _ _ _ _ _ _ _ _) as [o evs] eqn:Hrun.
  apply getPrFiles_loop_run in Hrun as (_ & Hfail & _). simpl in *.
  assert (call_failures evs = listing_failures evs) as ->.
  { clear Hfail. induction Hev as [|ev evs Hev _ IH]; [done|].
    destruct ev as [? ? ? ? ? []|? ? ? ? ?|? ? ?|? ? ? ? ?|? ? ? ? ? ?|? ? ?];
      try discriminate Hev; simpl; by rewrite ?IH. }
  rewrite Hfail. destruct o; simpl; try done. by intros [->|[]].
Qed.

End Handlers.

Ltac finishes_step :=
  first
    [ apply finishes_ret | apply finishes_lift | apply finishes_log
    | apply finishes_await | apply and_get_finishes
    | apply callBackend_finishes | eassumption
    | apply finishes_bind; [|intros ?]
    | match goal with |- finishes (if ?b then _ else _) => destruct b end ].

Ltac quiet_step :=
  first
    [ by apply emits_ret | by apply emits_lift | by apply emits_log
    | by apply and_get_emits
    | apply emits_bind_any; [|intros ?]
    | match goal with |- emits _ _ (if ?b then _ else _) => destruct b end ].

Ltac propagates_step :=
  first
    [ apply propagates_getPrFiles
    | apply propagates_await; intros [?|?] ?; simpl;
      [intros []|intros [<-|[]]; reflexivity]
    | apply propagates_bind; [|intros ?]
    | match goal with |- propagates (if ?b then _ else _) => destruct b end
    | apply (propagates_quiet (fun _ => True)) ].

(** *** The guard at the handler boundary *)

Section Guard.

Variable body : M unit.
Variable msg : string.

Local Abbreviation guarded :=
  (try_catch body (fun err => log Error msg (CtxErr err))).

Lemma guarded_not_raised h e : fst (guarded h) <> Raised e.
Proof. unfold try_catch, log. by destruct (body h) as [[[]|e'|] evs]. Qed.

Lemma guarded_logs h e evs :
  body h = (Raised e, evs) ->
  guarded h = (Done tt, evs ++ [ELog Error msg (CtxErr e)]).
Proof. unfold try_catch, log. by intros ->. Qed.

Lemma guarded_done h : fst (body h) <> OutOfFuel -> fst (guarded h) = Done tt.
Proof. unfold try_catch, log. by destruct (body h) as [[[]|e'|] evs]. Qed.

Lemma guarded_logs_failure h e :
  propagates body ->
  In e (call_failures (snd (guarded h))) ->
  In (ELog Error msg (CtxErr e)) (snd (guarded h)).
Proof.
  intros Hp. specialize (Hp h e). unfold try_catch, log.
  destruct (body h) as [[[]|e'|] evs]; simpl in *; intros Hin;
    try (by specialize (Hp Hin)).
  rewrite call_failures_app, in_app_iff in Hin. simpl in Hin.
  destruct Hin as [Hin|[]]. injection (Hp Hin) as ->.
  apply in_app_iff. right. by left.
Qed.

Lemma guarded_emits (P : event -> Prop) :
  (forall lvl m c, P (ELog lvl m c)) ->
  emits P (fun _ => True) body -> emits P (fun _ => True) guarded.
Proof.
  intros Hlog Hb. apply emits_try_catch; [done|]. intros e.
  by apply emits_log.
Qed.

End Guard.

Section HandlerBodies.

Variable w : World.
Variable fuel : nat.
Variable payload : value.

Lemma callBackend_quiet p :
  emits quiet_event (fun _ => True) (callBackend w p).
Proof.
  intros h. split; [|done].
  destruct (callBackend_run w p h) as (v & evs & -> & _ & Hevs). simpl.
  eapply Forall_impl; [exact Hevs|]. intros ev. unfold quiet_event.
  by destruct ev.
Qed.


Lemma review_submitted_body_finishes n :
  pages_end w n -> n - 1 < fuel ->
  finishes (review_submitted_body w fuel payload).
Proof.
  intros Hend Hfuel. unfold review_submitted_body.
  repeat (finishes_step || apply (getPrFiles_finishes w n); try done).
Qed.

Lemma review_comment_created_body_finishes n :
  pages_end w n -> n - 1 < fuel ->
  finishes (review_comment_created_body w fuel payload).
Proof.
  intros Hend Hfuel. unfold review_comment_created_body.
  repeat (finishes_step || apply (getPrFiles_finishes w n); try done).
Qed.

Lemma review_submitted_body_propagates :
  propagates (review_submitted_body w fuel payload).
Proof.
  unfold review_submitted_body.
  repeat propagates_step; solve [repeat quiet_step | apply callBackend_quiet].
Qed.

Lemma review_comment_created_body_propagates :
  propagates (review_comment_created_body w fuel payload).
Proof.
  unfold review_comment_created_body.
  repeat propagates_step; solve [repeat quiet_step | apply callBackend_quiet].
Qed.

End HandlerBodies.

Lemma bind_lift_Ok {A B} (a : A) (k : A -> M B) h :
  bind (lift (Ok a)) k h = k a (h ++ []).
Proof. unfold bind, lift. by destruct (k a (h ++ [])). Qed.

Lemma get_defined v k x :
  get v k = Ok x -> x <> VUndefined -> truthy v = true.
Proof. destruct v; simpl; congruence. Qed.

Lemma isFromBot_bot payload : bot_sender payload -> isFromBot payload = Ok true.
Proof.
  intros (sender & Hs & Hbot). unfold isFromBot. rewrite Hs.
  assert (Ht : truthy sender = true).
  { destruct Hbot as [H|[p H]]; by eapply get_defined. }
  rewrite Ht. cbn [negb].
  destruct (get_truthy sender "type" Ht) as [ty Hty]. rewrite Hty.
  destruct (strict_eq_lit ty "Bot") eqn:E; [done|].
  destruct Hbot as [H|[p H]].
  { rewrite Hty in H. injection H as ->.
    by rewrite (proj2 (strict_eq_lit_true (str "Bot") "Bot") eq_refl) in E. }
  rewrite H.
  assert (Hends : endsWith (p ++ lit "[bot]") (lit "[bot]") = true)
    by (apply endsWith_spec; eauto).
  assert (Htr : truthy (VStr (p ++ lit "[bot]")) = true) by (by destruct p).
  rewrite Htr. cbn [negb call_endsWith]. by rewrite Hends.
Qed.

Lemma blank_trim body :
  truthy body = false \/ (exists s, body = VStr s /\ blank s) ->
  call_trim (js_or body (str "")) = Ok (VStr []).
Proof.
  unfold js_or. intros [->|(s & -> & Hs)]; [done|].
  destruct (truthy (VStr s)); [|done]. simpl. f_equal. f_equal.
  by apply trim_nil.
Qed.

Section Skipping.

Variable w : World.
Variable fuel : nat.
Variable payload : value.

Lemma review_submitted_bot h :
  isFromBot payload = Ok true ->
  on_pull_request_review_submitted w fuel payload h
  = (Done tt, [ELog Info "Skipping pull_request_review from bot sender." NoCtx]).
Proof.
  intros Hbot. apply try_catch_done. unfold review_submitted_body.
  by rewrite Hbot, bind_lift_Ok.
Qed.

Lemma review_comment_created_bot h :
  isFromBot payload = Ok true ->
  on_pull_request_review_comment_created w fuel payload h
  = (Done tt,
     [ELog Info "Skipping pull_request_review_comment from bot sender." NoCtx]).
Proof.
  intros Hbot. apply try_catch_done. unfold review_comment_created_body.
  by rewrite Hbot, bind_lift_Ok.
Qed.

Lemma review_submitted_blank h :
  blank_body payload "review" ->
  fst (on_pull_request_review_submitted w fuel payload h) = Done tt
  /\ Forall log_event (snd (on_pull_request_review_submitted w fuel payload h)).
Proof.
  intros (review & body & Hreview & Hbody & Hblank).
  destruct (isFromBot payload) as [[|]|e] eqn:Hbot.
  { rewrite review_submitted_bot by done. by repeat constructor. }
  2: { assert (Hb : review_submitted_body w fuel payload h = (Raised e, [])).
       { unfold review_submitted_body. by rewrite Hbot. }
       unfold on_pull_request_review_submitted.
       rewrite (guarded_logs _ _ _ _ _ Hb). by repeat constructor. }
  destruct (get_twice _ _ _ "pull_request" Hreview) as [pr Hpr].
  destruct (get_twice _ _ _ "repository" Hreview) as [repo Hrepo].
  assert (Hb : review_submitted_body w fuel payload h
               = (Done tt, [ELog Info "Review body empty, skipping." NoCtx])).
  { unfold review_submitted_body.
    rewrite Hbot, bind_lift_Ok, Hreview, bind_lift_Ok, Hpr, bind_lift_Ok.
    rewrite Hrepo, bind_lift_Ok, Hbody, bind_lift_Ok.
    by rewrite (blank_trim _ Hblank), bind_lift_Ok. }
  unfold on_pull_request_review_submitted.
  rewrite (try_catch_done _ _ _ _ _ Hb). by repeat constructor.
Qed.

Lemma review_comment_created_blank h :
  blank_body payload "comment" ->
  fst (on_pull_request_review_comment_created w fuel payload h) = Done tt
  /\ Forall log_event
       (snd (on_pull_request_review_comment_created w fuel payload h)).
Proof.
  intros (comment & body & Hcomment & Hbody & Hblank).
  destruct (isFromBot payload) as [[|]|e] eqn:Hbot.
  { rewrite review_comment_created_bot by done. by repeat constructor. }
  2: { assert (Hb : review_comment_created_body w fuel payload h = (Raised e, [])).
       { unfold review_comment_created_body. by rewrite Hbot. }
       unfold on_pull_request_review_comment_created.
       rewrite (guarded_logs _ _ _ _ _ Hb). by repeat constructor. }
  destruct (get_twice _ _ _ "pull_request" Hcomment) as [pr Hpr].
  destruct (get_twice _ _ _ "repository" Hcomment) as [repo Hrepo].
  assert (Hb : review_comment_created_body w fuel payload h
               = (Done tt, [ELog Info "Inline comment body empty, skipping." NoCtx])).
  { unfold review_comment_created_body.
    rewrite Hbot, bind_lift_Ok, Hcomment, bind_lift_Ok, Hpr, bind_lift_Ok.
    rewrite Hrepo, bind_lift_Ok, Hbody, bind_lift_Ok.
    by rewrite (blank_trim _ Hblank), bind_lift_Ok. }
  unfold on_pull_request_review_comment_created.
  rewrite (try_catch_done _ _ _ _ _ Hb). by repeat constructor.
Qed.

(** C5: for a bot sender (type ["Bot"] or login ending with ["[bot]"])
    and for a missing, empty or white-space-only text, each handler
    returns having done nothing but logging: no listing, no content
    lookup, no backend call, no write. *)
Theorem bot_or_blank_no_action h :
  (bot_sender payload \/ blank_body payload "review" ->
   fst (on_pull_request_review_submitted w fuel payload h) = Done tt
   /\ Forall (fun ev => is_log ev = true)
        (snd (on_pull_request_review_submitted w fuel payload h)))
  /\ (bot_sender payload \/ blank_body payload "comment" ->
      fst (on_pull_request_review_comment_created w fuel payload h) = Done tt
      /\ Forall (fun ev => is_log ev = true)
           (snd (on_pull_request_review_comment_created w fuel payload h))).
Proof.
  split; (intros [Hbot%isFromBot_bot|Hblank]).
  - rewrite review_submitted_bot by done. by repeat constructor.
  - by apply review_submitted_blank.
  - rewrite review_comment_created_bot by done. by repeat constructor.
  - by apply review_comment_created_blank.
Qed.

End Skipping.


(** *** Every write posts an answer of the backend *)

Section Answers.

Variable w : World.







Lemma callBackend_answer p h :
  exists v evs,
    callBackend w p h = (Done v, evs)
    /\ Forall not_write evs /\ (truthy v = true -> answered evs v).
Proof.
  unfold callBackend. destruct (truthy (backendUrl w)); simpl.
  2: { eexists _, _. split; [reflexivity|]. split; [by repeat constructor|done]. }
  unfold try_catch, bind, await, lift, ret, log. simpl.
  destruct (axios_post w _ _ _) as [data|e]; simpl.
  2: { eexists _, _. split; [reflexivity|]. split; [by repeat constructor|done]. }
  destruct (get data "comment") as [c|e] eqn:Hc; simpl.
  2: { eexists _, _. split; [reflexivity|]. split; [by repeat constructor|done]. }
  destruct (truthy c) eqn:Ht; simpl.
  2: { eexists _, _. split; [reflexivity|]. split; [by repeat constructor|done]. }
  destruct c as [| | | |s| |]; simpl;
    try (eexists _, _; split; [reflexivity|]; split;
         [by repeat constructor|done]).
  destruct (trim s) eqn:Hs; simpl;
    eexists _, _; (split; [reflexivity|]); (split; [by repeat constructor|]);
    [done|].
  intros _. eexists _, _, data, s. split; [right; left; reflexivity|].
  repeat split; [done|]. intros Hb%trim_nil. congruence.
Qed.



End Answers.



Section Replies.

Variable w : World.





(** C3: no handler ever raises: an error raised in the body ends the
    handler normally, with the error logged; this holds in particular
    for a listing or a write that fails; and when the listing of the
    pull request ends, the handler does complete. *)
Theorem handlers_never_raise fuel payload h :
  let review := on_pull_request_review_submitted w fuel payload in
  let comment := on_pull_request_review_comment_created w fuel payload in
  (forall e, fst (review h) <> Raised e /\ fst (comment h) <> Raised e)
  /\ (forall e evs,
      review_submitted_body w fuel payload h = (Raised e, evs) ->
      review h
      = (Done tt,
         evs ++ [ELog Error "Error while handling pull_request_review.submitted"
                   (CtxErr e)]))
  /\ (forall e evs,
      review_comment_created_body w fuel payload h = (Raised e, evs) ->
      comment h
      = (Done tt,
         evs ++ [ELog Error
                   "Error while handling pull_request_review_comment.created"
                   (CtxErr e)]))
  /\ (forall e,
      In e (call_failures (snd (review h))) ->
      In (ELog Error "Error while handling pull_request_review.submitted"
            (CtxErr e)) (snd (review h)))
  /\ (forall e,
      In e (call_failures (snd (comment h))) ->
      In (ELog Error "Error while handling pull_request_review_comment.created"
            (CtxErr e)) (snd (comment h)))
  /\ (forall n, pages_end w n -> n - 1 < fuel ->
      fst (review h) = Done tt /\ fst (comment h) = Done tt).
Proof.
  intros review comment. repeat apply conj.
  - intros e. split; apply guarded_not_raised.
  - intros e evs. apply guarded_logs.
  - intros e evs. apply guarded_logs.
  - intros e. apply guarded_logs_failure, review_submitted_body_propagates.
  - intros e. apply guarded_logs_failure, review_comment_created_body_propagates.
  - intros n Hend Hfuel. split; apply guarded_done.
    + by apply (review_submitted_body_finishes w fuel payload n).
    + by apply (review_comment_created_body_finishes w fuel payload n).
Qed.

End Replies.

(** * The properties on sample deliveries *)

Lemma surjective_pairing_done {A} (r : outcome A * list event) a :
  fst r = Done a -> r = (Done a, snd r).
Proof. destruct r as [o evs]. simpl. by intros ->. Qed.

Lemma not_blank_text : ~ blank (lit "Thanks!").
Proof. intros H%trim_nil. vm_compute in H. discriminate H. Qed.

Lemma alice_not_bot : ~ exists p, lit "alice" = p ++ lit "[bot]".
Proof. intros H%endsWith_spec. vm_compute in H. discriminate H. Qed.

(** [isFromBot] on dependabot, on a person, without a sender, and on a
    sender whose login is a number. *)
Lemma isFromBot_cases_witness :
  isFromBot (delivery dependabot (str "ok")) = Ok true
  /\ isFromBot (delivery human (str "ok")) = Ok false
  /\ isFromBot (delivery VUndefined (str "ok")) = Ok false
  /\ isFromBot
       (delivery (VObj {[ "login" := VNum 5; "type" := str "User" ]})
          (str "ok"))
     = Throw TypeError.
Proof.
  split; [|split; [|split]].
  - destruct (isFromBot_cases (delivery dependabot (str "ok")) dependabot
                eq_refl) as (_ & Hbot & _).
    apply Hbot; reflexivity.
  - destruct (isFromBot_cases (delivery human (str "ok")) human eq_refl)
      as (_ & _ & _ & Hother & _).
    apply (Hother (str "User") (str "alice")); try reflexivity.
    + intros H. vm_compute in H. discriminate H.
    + right. exists (lit "alice"). split; [reflexivity|apply alice_not_bot].
  - destruct (isFromBot_cases (delivery VUndefined (str "ok")) VUndefined
                eq_refl) as (Hnone & _).
    apply Hnone. reflexivity.
  - destruct (isFromBot_cases
                (delivery (VObj {[ "login" := VNum 5; "type" := str "User" ]})
                   (str "ok"))
                (VObj {[ "login" := VNum 5; "type" := str "User" ]}) eq_refl)
      as (_ & _ & _ & _ & Hraise).
    apply (Hraise (str "User") (VNum 5)); try (vm_compute; reflexivity).
    + intros H. vm_compute in H. discriminate H.
    + intros s H. discriminate H.
Defined.

(** "[false] in every other case" fails: a sender of type ["User"] whose
    login is the number 5 has no type ["Bot"] and no login ending with
    ["[bot]"], and [isFromBot] does not return [false] for it. *)
Lemma isFromBot_cases_counterexample :
  ~ (forall payload sender type login : value,
        get payload "sender" = Ok sender -> truthy sender = true ->
        get sender "type" = Ok type -> type <> str "Bot" ->
        get sender "login" = Ok login ->
        (~ exists p, login = VStr (p ++ lit "[bot]")) ->
        isFromBot payload = Ok false).
Proof.
  intros Hclaim.
  specialize (Hclaim
                (delivery (VObj {[ "login" := VNum 5; "type" := str "User" ]})
                   (str "ok"))
                (VObj {[ "login" := VNum 5; "type" := str "User" ]})
                (str "User") (VNum 5)).
  assert (Hfalse : isFromBot
                     (delivery
                        (VObj {[ "login" := VNum 5; "type" := str "User" ]})
                        (str "ok")) = Ok false).
  { apply Hclaim; try (vm_compute; reflexivity).
    - intros H. vm_compute in H. discriminate H.
    - intros [p H]. discriminate H. }
  vm_compute in Hfalse. discriminate Hfalse.
Qed.

(** A lookup that GitHub rejects. *)
Lemma getFileContent_never_throws_witness :
  getFileContent (github_down [] (str "text") VNull)
    (str "org") (str "repo") (str "a.js") (str "head") []
  = (Done VNull,
     [EGetContent (str "org") (str "repo") (str "a.js") (str "head")
        (Throw (RequestError 404));
      ELog Error "Failed to fetch file content from GitHub"
        (CtxFetch (RequestError 404) (str "a.js") (str "head"))]).
Proof.
  destruct (getFileContent_never_throws (github_down [] (str "text") VNull)
              (str "org") (str "repo") (str "a.js") (str "head") [])
    as (_ & Hthrow & _).
  apply Hthrow. reflexivity.
Defined.

(** A lookup of an empty file. *)
Lemma getFileContent_empty_file_witness :
  getFileContent (healthy [] (str "") VNull)
    (str "org") (str "repo") (str "a.js") (str "head") []
  = (Done VNull,
     [EGetContent (str "org") (str "repo") (str "a.js") (str "head")
        (Ok (VObj {[ "content" := str ""; "encoding" := str "utf8" ]}))]).
Proof.
  apply (getFileContent_empty_file (healthy [] (str "") VNull)
           (str "org") (str "repo") (str "a.js") (str "head") []
           {[ "content" := str ""; "encoding" := str "utf8" ]}).
  - reflexivity.
  - vm_compute. reflexivity.
Defined.

(** The four files of the sample pull request. *)
Lemma getPrFiles_added_removed_null_witness :
  exists out evs,
    getPrFiles (healthy four_files (str "text") VNull) 1
      (str "org") (str "repo") (VNum 7) (str "base") (str "head") []
    = (Done out, evs)
    /\ map status out
       = [str "added"; str "removed"; str "modified"; str "renamed"]
    /\ Forall (fun cf =>
                 (status cf = str "added" -> base_content cf = VNull)
                 /\ (status cf = str "removed" -> head_content cf = VNull))
         out.
Proof.
  eexists _, _. split; [vm_compute; reflexivity|].
  split; [vm_compute; reflexivity|].
  eapply (getPrFiles_added_removed_null
            (healthy four_files (str "text") VNull)
            (str "org") (str "repo") (VNum 7) (str "base") (str "head") 1 []).
  vm_compute. reflexivity.
Defined.

(** A pull request of 150 files. *)
Lemma getPrFiles_pagination_witness :
  serves (healthy (many_files 150) (str "text") VNull)
    (str "org") (str "repo") (VNum 7) (many_files 150)
  /\ length (many_files 150) / 100 < 2
  /\ exists out evs,
       getPrFiles (healthy (many_files 150) (str "text") VNull) 2
         (str "org") (str "repo") (VNum 7) (str "base") (str "head") []
       = (Done out, evs)
       /\ listings evs = [(100, 1); (100, 2)]
       /\ page_sizes evs = [100; 50]
       /\ length out = 150.
Proof.
  assert (Hserves : serves (healthy (many_files 150) (str "text") VNull)
                      (str "org") (str "repo") (VNum 7) (many_files 150))
    by (intros h per_page page; reflexivity).
  assert (Hfuel : length (many_files 150) / 100 < 2) by (vm_compute; lia).
  split; [exact Hserves|]. split; [exact Hfuel|].
  destruct (getPrFiles_pagination
              (healthy (many_files 150) (str "text") VNull)
              (str "org") (str "repo") (VNum 7) (str "base") (str "head") 2 [])
    as (_ & _ & Hlisting).
  destruct (Hlisting (many_files 150) Hserves Hfuel)
    as (out & Hrun & _ & Hl & _ & _ & _ & H150 & _).
  exists out. eexists. split; [apply surjective_pairing_done; exact Hrun|].
  split; [exact Hl|]. split; [vm_compute; reflexivity|].
  apply H150. reflexivity.
Defined.

(** GitHub is down: the listing fails, and the collector raises with the
    error of the listing, its only failure.  Only the content lookups are
    down: the six lookups of the four files fail, and the collector
    returns the four entries, without the contents looked up. *)
Lemma getPrFiles_error_policy_witness :
  (fst (getPrFiles (github_down four_files (str "text") VNull) 1
          (str "org") (str "repo") (VNum 7) (str "base") (str "head") [])
   = Raised (RequestError 502)
   /\ listing_failures
        (snd (getPrFiles (github_down four_files (str "text") VNull) 1
                (str "org") (str "repo") (VNum 7) (str "base") (str "head")
                []))
      = [RequestError 502])
  /\ exists a b c d,
       fst (getPrFiles (contents_down four_files (str "text") VNull) 1
              (str "org") (str "repo") (VNum 7) (str "base") (str "head") [])
       = Done [a; b; c; d]
       /\ Forall2 entry_for four_files [a; b; c; d]
       /\ head_content a = VNull /\ base_content b = VNull
       /\ (base_content c = VNull /\ head_content c = VNull)
       /\ (base_content d = VNull /\ head_content d = VNull).
Proof.
  split.
  - destruct (getPrFiles_error_policy
                (github_down four_files (str "text") VNull)
                (str "org") (str "repo") (VNum 7) (str "base") (str "head") 1 [])
      as (Hlist & Hraised & _).
    assert (Hr : fst (getPrFiles (github_down four_files (str "text") VNull) 1
                        (str "org") (str "repo") (VNum 7) (str "base")
                        (str "head") [])
                 = Raised (RequestError 502))
      by (apply Hlist; vm_compute; left; reflexivity).
    split; [exact Hr|]. apply Hraised. exact Hr.
  - destruct (getPrFiles_error_policy
                (contents_down four_files (str "text") VNull)
                (str "org") (str "repo") (VNum 7) (str "base") (str "head") 1 [])
      as (_ & _ & _ & Hdone & Hserved).
    destruct (Hserved four_files) as (out & Hout & Hentries);
      [intros h per_page page; reflexivity|vm_compute; lia|].
    destruct (Hdone out Hout) as (_ & Habs).
    assert (Hdeal :
      deal
        (listed
           (snd (getPrFiles (contents_down four_files (str "text") VNull) 1
                   (str "org") (str "repo") (VNum 7) (str "base")
                   (str "head") [])))
        (content_answers
           (snd (getPrFiles (contents_down four_files (str "text") VNull) 1
                   (str "org") (str "repo") (VNum 7) (str "base")
                   (str "head") [])))
      = [ (None, Some (Throw (RequestError 404)));
          (Some (Throw (RequestError 404)), None);
          (Some (Throw (RequestError 404)), Some (Throw (RequestError 404)));
          (Some (Throw (RequestError 404)), Some (Throw (RequestError 404))) ])
      by (vm_compute; reflexivity).
    rewrite Hdeal in Habs. clear Hdeal.
    apply Forall2_cons_inv_r in Habs as (a & out1 & [_ Ha] & Habs & ->).
    apply Forall2_cons_inv_r in Habs as (b & out2 & [Hb _] & Habs & ->).
    apply Forall2_cons_inv_r in Habs as (c & out3 & [Hcb Hch] & Habs & ->).
    apply Forall2_cons_inv_r in Habs as (d & out4 & [Hdb Hdh] & Habs & ->).
    apply Forall2_nil_inv_r in Habs as ->.
    exists a, b, c, d. split; [exact Hout|]. split; [exact Hentries|].
    split; [exact (Ha _ eq_refl)|]. split; [exact (Hb _ eq_refl)|].
    split; split;
      [exact (Hcb _ eq_refl)|exact (Hch _ eq_refl)
      |exact (Hdb _ eq_refl)|exact (Hdh _ eq_refl)].
Defined.

(** The renamed file of the sample pull request. *)
Lemma getPrFiles_lookups_use_filename_witness :
  expected_requests (str "org") (str "repo") (str "base") (str "head")
    (<["previous_filename" := str "old.js"]> (listed_file "d.js" "renamed"))
  = [(str "org", str "repo", str "d.js", str "base");
     (str "org", str "repo", str "d.js", str "head")].
Proof.
  destruct (getPrFiles_lookups_use_filename
              (healthy four_files (str "text") VNull)
              (str "org") (str "repo") (VNum 7) (str "base") (str "head") 1 [])
    as (_ & Hrenamed & _).
  rewrite Hrenamed; [|vm_compute; reflexivity].
  vm_compute. reflexivity.
Defined.

(** A review by dependabot, and an inline comment with a blank text. *)
Lemma bot_or_blank_no_action_witness :
  bot_sender (delivery dependabot (str "Looks good"))
  /\ blank_body (delivery human (str "  ")) "comment"
  /\ Forall (fun ev => is_log ev = true)
       (snd (on_pull_request_review_submitted
               (healthy four_files (str "text") (str "Thanks!"))
               1 (delivery dependabot (str "Looks good")) []))
  /\ Forall (fun ev => is_log ev = true)
       (snd (on_pull_request_review_comment_created
               (healthy four_files (str "text") (str "Thanks!"))
               1 (delivery human (str "  ")) [])).
Proof.
  assert (Hbot : bot_sender (delivery dependabot (str "Looks good"))).
  { exists dependabot. split; [reflexivity|]. left. reflexivity. }
  assert (Hblank : blank_body (delivery human (str "  ")) "comment").
  { eexists _, (str "  "). split; [reflexivity|]. split; [reflexivity|].
    right. exists (lit "  "). split; [reflexivity|]. by repeat constructor. }
  split; [exact Hbot|]. split; [exact Hblank|]. split.
  - destruct (bot_or_blank_no_action
                (healthy four_files (str "text") (str "Thanks!")) 1
                (delivery dependabot (str "Looks good")) []) as (Hreview & _).
    apply (Hreview (or_introl Hbot)).
  - destruct (bot_or_blank_no_action
                (healthy four_files (str "text") (str "Thanks!")) 1
                (delivery human (str "  ")) []) as (_ & Hcomment).
    apply (Hcomment (or_intror Hblank)).
Defined.


(** GitHub is down while a person submits a review: the handler ends
    normally and the error of the listing is in the log. *)
Lemma handlers_never_raise_witness :
  pages_end (github_down four_files (str "text") (str "Thanks!")) 0
  /\ fst (on_pull_request_review_submitted
            (github_down four_files (str "text") (str "Thanks!"))
            1 (delivery human (str "Looks good")) []) = Done tt
  /\ In (ELog Error "Error while handling pull_request_review.submitted"
           (CtxErr (RequestError 502)))
       (snd (on_pull_request_review_submitted
               (github_down four_files (str "text") (str "Thanks!"))
               1 (delivery human (str "Looks good")) [])).
Proof.
  assert (Hend : pages_end (github_down four_files (str "text") (str "Thanks!")) 0).
  { intros h owner repo prNumber page data _ H. discriminate H. }
  destruct (handlers_never_raise
              (github_down four_files (str "text") (str "Thanks!"))
              1 (delivery human (str "Looks good")) [])
    as (_ & _ & _ & Hlogged & _ & Hdone).
  split; [exact Hend|]. split.
  - apply (Hdone 0 Hend). vm_compute. lia.
  - apply Hlogged. vm_compute. left. reflexivity.
Defined.

(** * More of the program *)

(** ** The content fetcher: decoding *)

Section Decoding.

Variable w : World.
Variables owner repo path ref : value.

Local Abbreviation fetch_log e :=
  (ELog Error "Failed to fetch file content from GitHub" (CtxFetch e path ref)).
Local Abbreviation fetched r := (EGetContent owner repo path ref r).

(** X1: the content of a file is decoded with the encoding of the answer
    and, when the answer names none, as base64; the text decoded is what
    [getFileContent] returns, with nothing logged. *)
Theorem getFileContent_decodes h (o : obj) content text :
  getContent w h owner repo path ref = Ok (VObj o) ->
  prop o "content" = content -> truthy content = true ->
  Buffer_decode w content
    (if truthy (prop o "encoding") then prop o "encoding" else str "base64")
  = Ok text ->
  getFileContent w owner repo path ref h
  = (Done (VStr text), [fetched (Ok (VObj o))]).
Proof.
  intros Hr <- Ht Hd.
  unfold getFileContent, try_catch, bind, await, lift, ret, log.
  rewrite Hr. simpl. rewrite Ht. simpl. unfold js_or. by rewrite Hd.
Qed.

(** X2: an answer that cannot be read (it is [null], or its content
    cannot be decoded) is absorbed like a failed request: the error is
    logged with [path] and [ref] and the result is [null]. *)
Theorem getFileContent_unreadable h data :
  getContent w h owner repo path ref = Ok data ->
  isArray data = false ->
  forall e,
    (get data "content" = Throw e
     \/ exists content enc,
          get data "content" = Ok content /\ truthy content = true
          /\ get data "encoding" = Ok enc
          /\ Buffer_decode w content (js_or enc (str "base64")) = Throw e) ->
    getFileContent w owner repo path ref h
    = (Done VNull, [fetched (Ok data); fetch_log e]).
Proof.
  intros Hr Ha e He.
  unfold getFileContent, try_catch, bind, await, lift, ret, log.
  rewrite Hr. simpl. rewrite Ha.
  destruct He as [He|(content & enc & Hc & Ht & Henc & Hd)].
  - by rewrite He.
  - rewrite Hc. simpl. rewrite Ht. simpl. rewrite Henc. simpl. by rewrite Hd.
Qed.

Lemma getFileContent_events h :
  content_requests (snd (getFileContent w owner repo path ref h))
  = [(owner, repo, path, ref)]
  /\ Forall (lookup_event owner repo path ref)
       (snd (getFileContent w owner repo path ref h)).
Proof.
  destruct (getFileContent_run w owner repo path ref h) as [[s ->]|[->|[e ->]]];
    split; try reflexivity; by repeat constructor.
Qed.

(** X3: one call of [getFileContent] is one request to GitHub, for the
    path and the ref it was given; it does nothing else but log. *)
Theorem getFileContent_one_request h :
  content_requests (snd (getFileContent w owner repo path ref h))
  = [(owner, repo, path, ref)]
  /\ Forall (lookup_event owner repo path ref)
       (snd (getFileContent w owner repo path ref h)).
Proof. apply getFileContent_events. Qed.

End Decoding.

(** ** The collector: what it keeps and what it touches *)

Ltac emits_leaf :=
  first
    [ apply emits_ret; done
    | apply emits_lift; done
    | apply emits_log; [by simpl|done]
    | apply and_get_emits
    | apply emits_out_of_fuel ].

Section Collected.

Variable w : World.
Variables owner repo prNumber baseSha headSha : value.

Lemma getFileContent_lookup path ref :
  emits (lookup_event owner repo path ref) (fun _ => True)
    (getFileContent w owner repo path ref).
Proof.
  intros h. split; [|done].
  apply (getFileContent_events w owner repo path ref h).
Qed.

Lemma collect_file_events f :
  emits (collector_event owner repo prNumber baseSha headSha) (fun _ => True)
    (collect_file w owner repo baseSha headSha f).
Proof.
  unfold collect_file.
  apply emits_bind_any; [|intros b; apply emits_bind_any; [|intros hd]].
  - destruct (strict_eq_lit _ "added"); [emits_leaf|].
    eapply emits_weaken; [| |apply getFileContent_lookup]; [|done].
    intros [] H; simpl in *; try done. destruct H as (-> & -> & _ & ->). auto.
  - destruct (strict_eq_lit _ "removed"); [emits_leaf|].
    eapply emits_weaken; [| |apply getFileContent_lookup]; [|done].
    intros [] H; simpl in *; try done. destruct H as (-> & -> & _ & ->). auto.
  - emits_leaf.
Qed.

Lemma for_files_events data files :
  emits (collector_event owner repo prNumber baseSha headSha) (fun _ => True)
    (for_files w owner repo baseSha headSha data files).
Proof.
  revert files. induction data as [|f data IH]; intros files; simpl.
  - emits_leaf.
  - apply emits_bind_any; [apply collect_file_events|]. intros cf. apply IH.
Qed.

Lemma getPrFiles_loop_events fuel page files :
  emits (collector_event owner repo prNumber baseSha headSha) (fun _ => True)
    (getPrFiles_loop w fuel owner repo prNumber baseSha headSha page files).
Proof.
  revert page files. induction fuel as [|fuel IH]; intros page files; simpl.
  { emits_leaf. }
  apply emits_bind_any; [by apply emits_await|]. intros data.
  destruct (length data =? 0)%nat; [emits_leaf|].
  apply emits_bind_any; [apply for_files_events|]. intros files'.
  destruct (length data <? 100)%nat; [emits_leaf|]. apply IH.
Qed.

(** X4: the collector only reads: it lists the files of the pull request
    it was given, 100 a page, looks contents up in the repository it was
    given at [baseSha] or [headSha], and logs; it never calls the backend
    and never writes to GitHub. *)
Theorem getPrFiles_only_reads fuel h :
  Forall (collector_event owner repo prNumber baseSha headSha)
    (snd (getPrFiles w fuel owner repo prNumber baseSha headSha h)).
Proof. apply (getPrFiles_loop_events fuel 1 [] h). Qed.

(** X5: the result of the collector holds, for each file listed and in the
    order listed, the [filename], [status], [additions], [deletions] and
    [changes] of the listing unchanged, and its [patch], or [null] when
    the listing has no patch or an empty one. *)
Theorem getPrFiles_keeps_metadata fuel h out :
  fst (getPrFiles w fuel owner repo prNumber baseSha headSha h) = Done out ->
  Forall2
    (fun f cf =>
       filename cf = prop f "filename"
       /\ status cf = prop f "status"
       /\ additions cf = prop f "additions"
       /\ deletions cf = prop f "deletions"
       /\ changes cf = prop f "changes"
       /\ patch cf = (if truthy (prop f "patch") then prop f "patch"
                      else VNull))
    (listed (snd (getPrFiles w fuel owner repo prNumber baseSha headSha h)))
    out.
Proof.
  unfold getPrFiles.
  destruct (getPrFiles_loop _ _ _ _ _ _ _ _ _ _) as [o evs] eqn:Hrun.
  apply getPrFiles_loop_run in Hrun as (_ & _ & Hout). simpl. intros ->.
  destruct (Hout out eq_refl) as (entries & -> & Hentries). simpl.
  eapply Forall2_impl; [exact Hentries|].
  intros f cf (H1 & H2 & H3 & H4 & H5 & H6 & _). auto 10.
Qed.

End Collected.

(** ** The notifier: one request *)

Section OneRequest.

Variable w : World.
Variable p : BackendPayload.

Lemma callBackend_shape h :
  snd (callBackend w p h)
  = [ELog Error "BACKEND_URL is not set in environment variables" NoCtx]
    /\ truthy (backendUrl w) = false
  \/ exists r logs,
       snd (callBackend w p h)
       = ELog Info "Sending payload to backend" (CtxPayload p)
         :: EPost (backendUrl w) p r :: logs
       /\ Forall (fun ev => is_log ev = true) logs
       /\ truthy (backendUrl w) = true.
Proof.
  unfold callBackend. destruct (truthy (backendUrl w)); simpl; [right|by left].
  unfold try_catch, bind, await, lift, ret, log. simpl.
  destruct (axios_post w _ _ _) as [data|e]; simpl;
    [|eexists _, _; split; [reflexivity|]; by repeat constructor].
  destruct (get data "comment") as [c|e]; simpl;
    [|eexists _, _; split; [reflexivity|]; by repeat constructor].
  destruct (truthy c); simpl;
    [|eexists _, _; split; [reflexivity|]; by repeat constructor].
  destruct (call_trim c) as [t|e]; simpl;
    [|eexists _, _; split; [reflexivity|]; by repeat constructor].
  destruct (truthy t); simpl;
    eexists _, _; (split; [reflexivity|]); by repeat constructor.
Qed.

Lemma logs_no_call logs :
  Forall (fun ev => is_log ev = true) logs ->
  backend_calls logs = 0 /\ writes logs = 0.
Proof.
  unfold backend_calls, writes.
  induction 1 as [|ev evs Hev _ [IH1 IH2]]; [done|].
  destruct ev; try discriminate Hev. simpl. auto.
Qed.

Lemma callBackend_events h :
  Forall (notifier_event w p) (snd (callBackend w p h))
  /\ backend_calls (snd (callBackend w p h)) <= 1.
Proof.
  split.
  - destruct (callBackend_shape h) as [[-> _]|(r & logs & -> & Hlogs & _)];
      [by repeat constructor|].
    repeat constructor. eapply Forall_impl; [exact Hlogs|].
    intros ev. by destruct ev.
  - destruct (callBackend_shape h) as [[-> _]|(r & logs & -> & Hlogs & _)];
      [unfold backend_calls; simpl; lia|].
    destruct (logs_no_call _ Hlogs) as [Hc _].
    unfold backend_calls in *. simpl. lia.
Qed.

(** X6: [callBackend] sends the payload it was given to [BACKEND_URL], at
    most once (there is no retry), and touches nothing else; without a
    [BACKEND_URL] it sends nothing, logs the missing setting and returns
    [null]. *)
Theorem callBackend_one_request h :
  Forall (notifier_event w p) (snd (callBackend w p h))
  /\ backend_calls (snd (callBackend w p h)) <= 1
  /\ (truthy (backendUrl w) = false ->
      callBackend w p h
      = (Done VNull,
         [ELog Error "BACKEND_URL is not set in environment variables"
            NoCtx])).
Proof.
  split; [apply callBackend_events|]. split; [apply callBackend_events|].
  apply callBackend_unset.
Qed.

End OneRequest.

(** ** The handlers: whom they call, and with what *)

Lemma emits_bind_lift {A B} (P : event -> Prop) (R : B -> Prop)
    (r : result A) (k : A -> M B) :
  (forall a, r = Ok a -> emits P R (k a)) -> emits P R (bind (lift r) k).
Proof.
  intros Hk. apply (emits_bind P (fun a => r = Ok a)); [|done].
  by apply emits_lift.
Qed.

Lemma emits_always {A} (P : event -> Prop) (m : M A) :
  (forall ev, P ev) -> emits P (fun _ => True) m.
Proof. intros HP h. split; [|done]. apply Forall_forall. auto. Qed.

Lemma text_of_trim v t :
  call_trim v = Ok t -> negb (truthy t) = false -> is_text v.
Proof.
  destruct v as [| | | |s| |]; try discriminate. intros [= <-] Ht.
  exists s. split; [done|]. intros Hb%trim_nil. simpl in Ht.
  by rewrite Hb in Ht.
Qed.

Lemma js_or_text body : is_text (js_or body (str "")) -> js_or body (str "") = body.
Proof.
  unfold js_or. destruct (truthy body); [done|].
  intros (s & [= <-] & Hs). destruct Hs. constructor.
Qed.

Ltac solve_path :=
  cbn [get_path];
  repeat match goal with
         | H : get ?v ?k = Ok _ |- context [get ?v ?k] => rewrite H
         end;
  try reflexivity.

Ltac handler_step :=
  first
    [ progress cbv zeta
    | apply emits_bind_lift; intros ? ?
    | match goal with
      | |- emits _ _ (bind (and_get _ _) _) =>
          apply emits_bind_any; [apply and_get_emits|intros ?]
      | |- emits _ _ (if ?b then _ else _) => destruct b eqn:?
      end
    | emits_leaf ].

Section Steps.

Variable w : World.
Variable fuel : nat.

Lemma getPrFiles_spec owner repo prNumber baseSha headSha :
  emits (collector_event owner repo prNumber baseSha headSha)
    (Forall ChangedFile_inv)
    (getPrFiles w fuel owner repo prNumber baseSha headSha).
Proof.
  intros h. split; [apply (getPrFiles_loop_events _ _ _ _ _ _ fuel 1 [] h)|].
  unfold getPrFiles.
  destruct (getPrFiles_loop _ _ _ _ _ _ _ _ _ _) as [o evs] eqn:Hrun.
  apply getPrFiles_loop_run in Hrun as (_ & _ & Hout). simpl.
  intros out ->. destruct (Hout out eq_refl) as (entries & -> & Hentries).
  apply (entry_for_inv _ _ Hentries).
Qed.

Lemma callBackend_notifier p :
  emits (notifier_event w p) (fun _ => True) (callBackend w p).
Proof. intros h. split; [|done]. apply callBackend_events. Qed.

End Steps.

Ltac know_about payload :=
  match goal with
  | |- emits _ _ (bind (getPrFiles _ _ ?o ?r ?n ?b ?hd) _) =>
      assert (Habout : about payload o r n b hd)
        by (repeat split; solve_path)
  end.

Ltac collector_step :=
  match goal with
  | |- emits ?P _ (bind (getPrFiles _ _ _ _ _ _ _) _) =>
      apply (emits_bind P (Forall ChangedFile_inv));
      [eapply emits_weaken; [| |apply getPrFiles_spec]; [|done]
      |intros ? ?]
  end.

Ltac notifier_step :=
  match goal with
  | |- emits ?P _ (bind (callBackend _ _) _) =>
      apply emits_bind_any;
      [eapply emits_weaken; [| |apply callBackend_notifier]; [|done]
      |intros ?]
  end.

Section Addressing.

Variable w : World.
Variable fuel : nat.
Variable payload : value.

Lemma collector_addressed owner repoName prNumber baseSha headSha ev :
  about payload owner repoName prNumber baseSha headSha ->
  collector_event owner repoName prNumber baseSha headSha ev ->
  addressed payload ev /\ is_reply ev = false /\ is_comment ev = false.
Proof.
  intros (Ho & Hr & Hn & Hb & Hh). destruct ev; simpl; try done.
  - intros (-> & -> & -> & ->). auto 10.
  - intros (-> & -> & [->| ->]); auto 10.
Qed.

Lemma review_addressed :
  emits (fun ev => addressed payload ev /\ is_reply ev = false)
    (fun _ => True) (review_submitted_body w fuel payload).
Proof.
  unfold review_submitted_body. repeat handler_step.
  know_about payload. collector_step.
  { intros ev Hev. by apply (collector_addressed _ _ _ _ _ _ Habout) in Hev as (? & ? & _). }
  repeat handler_step. notifier_step.
  { intros []; simpl; try done. }
  repeat handler_step. apply emits_await; [|done].
  intros r. destruct Habout as (? & ? & ? & _). simpl. auto.
Qed.

Lemma review_comment_addressed :
  emits (fun ev => addressed payload ev /\ is_comment ev = false)
    (fun _ => True) (review_comment_created_body w fuel payload).
Proof.
  unfold review_comment_created_body. repeat handler_step.
  know_about payload. collector_step.
  { intros ev Hev. by apply (collector_addressed _ _ _ _ _ _ Habout) in Hev as (? & _ & ?). }
  repeat handler_step. notifier_step.
  { intros []; simpl; try done. }
  repeat handler_step.
  apply emits_bind_any; [|intros _; emits_leaf].
  apply emits_await; [|done].
  intros r. destruct Habout as (? & ? & ? & _). simpl.
  repeat split; try done. solve_path.
Qed.

(** X7: every call a handler makes to GitHub is about the delivery it
    handles: the listings, the content lookups and the write name the
    owner and the name of [payload.repository] and the number of
    [payload.pull_request], the contents are read at the base and head
    [sha] of the pull request; a review is answered by a comment on the
    pull request and never by a reply, an inline comment by a reply to
    that very comment and never by a new comment. *)
Theorem handlers_addressed h :
  Forall (fun ev => addressed payload ev /\ is_reply ev = false)
    (snd (on_pull_request_review_submitted w fuel payload h))
  /\ Forall (fun ev => addressed payload ev /\ is_comment ev = false)
       (snd (on_pull_request_review_comment_created w fuel payload h)).
Proof.
  split.
  - apply (guarded_emits _ _ _ (fun _ _ _ => conj I eq_refl) review_addressed).
  - apply (guarded_emits _ _ _ (fun _ _ _ => conj I eq_refl)
             review_comment_addressed).
Qed.

End Addressing.

(** ** The handlers: what they send to the backend *)

Ltac know_text :=
  match goal with
  | Ht : call_trim (js_or ?body _) = Ok ?t, Hn : negb (truthy ?t) = false
    |- _ =>
      let Htext := fresh "Htext" in
      let Hbody := fresh "Hbody" in
      pose proof (text_of_trim _ _ Ht Hn) as Htext;
      pose proof Htext as Hbody;
      rewrite (js_or_text _ Htext) in Hbody |- *
  end.

Lemma and_get_guarded P a k : emits P (guarded_read a k) (and_get a k).
Proof.
  unfold and_get, guarded_read.
  destruct (truthy a); [by apply emits_lift|by apply emits_ret].
Qed.

Ltac payload_step :=
  first
    [ match goal with
      | |- emits _ _ (bind (and_get ?a ?k) _) =>
          apply (emits_bind _ (guarded_read a k));
          [apply and_get_guarded|intros ? ?]
      end
    | handler_step ].

Ltac solve_login :=
  eexists; split; [solve_path|eassumption].

Section Payloads.

Variable w : World.
Variable fuel : nat.
Variable payload : value.

Lemma review_sends :
  emits (fun ev => forall url p res, ev = EPost url p res ->
                   url = backendUrl w /\ review_payload payload p)
    (fun _ => True) (review_submitted_body w fuel payload).
Proof.
  unfold review_submitted_body. repeat handler_step. know_text.
  collector_step.
  { intros ev Hev url p res ->. destruct Hev. }
  repeat payload_step. notifier_step.
  { intros ev Hev url p res ->. destruct Hev as [-> ->]. split; [done|].
    unfold review_payload, payload_of. simpl.
    repeat (split; [first [done|solve [solve_path]|solve_login]|]). done. }
  repeat handler_step. by apply emits_await.
Qed.

Lemma review_comment_sends :
  emits (fun ev => forall url p res, ev = EPost url p res ->
                   url = backendUrl w /\ comment_payload payload p)
    (fun _ => True) (review_comment_created_body w fuel payload).
Proof.
  unfold review_comment_created_body. repeat handler_step. know_text.
  collector_step.
  { intros ev Hev url p res ->. destruct Hev. }
  repeat payload_step. notifier_step.
  { intros ev Hev url p res ->. destruct Hev as [-> ->]. split; [done|].
    unfold comment_payload, payload_of. simpl.
    repeat (split; [first [done|solve [solve_path]|solve_login]|]). done. }
  repeat handler_step.
  apply emits_bind_any; [by apply emits_await|]. intros _. emits_leaf.
Qed.

(** X8: whatever the review handler sends to the backend goes to
    [BACKEND_URL] and is a review payload: [kind] is ["review"], the
    text and the state are those of [payload.review] and the text is not
    blank, [reviewer_login] is [review.user && review.user.login], the
    five fields of an inline comment are [null], the pull request and
    repository fields are those of the delivery, with [pr_author_login]
    read as [pr.user && pr.user.login], and every file keeps the
    invariant of the data model. *)
Theorem review_payload_sent h url p res :
  In (EPost url p res)
    (snd (on_pull_request_review_submitted w fuel payload h)) ->
  url = backendUrl w /\ review_payload payload p.
Proof.
  intros Hin.
  assert (Hh : emits (fun ev => forall url p res, ev = EPost url p res ->
                      url = backendUrl w /\ review_payload payload p)
                 (fun _ => True)
                 (on_pull_request_review_submitted w fuel payload)).
  { apply guarded_emits; [done|apply review_sends]. }
  destruct (Hh h) as [Hev _]. rewrite Forall_forall in Hev.
  apply list_elem_of_In in Hin. by apply (Hev _ Hin url p res).
Qed.

(** X9: whatever the inline-comment handler sends to the backend goes to
    [BACKEND_URL] and is a comment payload: [kind] is ["review_comment"],
    the review fields are [null], the text, path, diff hunk, position
    and id are those of [payload.comment] and the text is not blank,
    [reviewer_login] is [comment.user && comment.user.login], the pull
    request and repository fields are those of the delivery, with
    [pr_author_login] read as [pr.user && pr.user.login], and every file
    keeps the invariant of the data model. *)
Theorem comment_payload_sent h url p res :
  In (EPost url p res)
    (snd (on_pull_request_review_comment_created w fuel payload h)) ->
  url = backendUrl w /\ comment_payload payload p.
Proof.
  intros Hin.
  assert (Hh : emits (fun ev => forall url p res, ev = EPost url p res ->
                      url = backendUrl w /\ comment_payload payload p)
                 (fun _ => True)
                 (on_pull_request_review_comment_created w fuel payload)).
  { apply guarded_emits; [done|apply review_comment_sends]. }
  destruct (Hh h) as [Hev _]. rewrite Forall_forall in Hev.
  apply list_elem_of_In in Hin. by apply (Hev _ Hin url p res).
Qed.

End Payloads.

(** ** The handlers: how often they call *)

Lemma backend_calls_app evs evs' :
  backend_calls (evs ++ evs') = backend_calls evs + backend_calls evs'.
Proof. unfold backend_calls. by rewrite List.filter_app, length_app. Qed.

Lemma writes_app evs evs' : writes (evs ++ evs') = writes evs + writes evs'.
Proof. unfold writes. by rewrite List.filter_app, length_app. Qed.

Lemma silent_events_count evs :
  Forall silent_event evs -> backend_calls evs = 0 /\ writes evs = 0.
Proof.
  unfold backend_calls, writes.
  induction 1 as [|ev evs [Hb Hw] _ [IH1 IH2]]; [done|].
  simpl. by rewrite Hb, Hw.
Qed.

Lemma at_most_silent {A} (P : event -> Prop) (Q : A -> Prop) (m : M A) :
  (forall ev, P ev -> silent_event ev) -> emits P Q m -> at_most 0 0 m.
Proof.
  intros HP Hm h. destruct (Hm h) as [Hev _].
  destruct (silent_events_count (snd (m h))) as [-> ->]; [|done].
  eapply Forall_impl; eauto.
Qed.

Lemma at_most_bind {A B} a b c d (m : M A) (k : A -> M B) :
  at_most a b m -> (forall x, at_most c d (k x)) ->
  at_most (a + c) (b + d) (bind m k).
Proof.
  intros Hm Hk h. unfold bind. destruct (Hm h) as [Hp Hw].
  destruct (m h) as [[x|e|] evs]; simpl in *; try lia.
  destruct (Hk x (h ++ evs)) as [Hp' Hw'].
  destruct (k x (h ++ evs)) as [o evs']. simpl in *.
  rewrite backend_calls_app, writes_app. lia.
Qed.

Lemma at_most_weaken {A} a b a' b' (m : M A) :
  a <= a' -> b <= b' -> at_most a b m -> at_most a' b' m.
Proof. intros Ha Hb Hm h. destruct (Hm h). lia. Qed.

Lemma at_most_guard (body : M unit) msg a b :
  at_most a b body ->
  at_most a b (try_catch body (fun err => log Error msg (CtxErr err))).
Proof.
  intros Hb h. destruct (Hb h) as [Hp Hw]. unfold try_catch, log.
  destruct (body h) as [[[]|e|] evs]; simpl in *; try done.
  rewrite backend_calls_app, writes_app. unfold backend_calls, writes in *.
  simpl. lia.
Qed.

Lemma at_most_await_write {A} (answer : list event -> result A) ev :
  (forall r, is_backend_call (ev r) = false) -> at_most 0 1 (await answer ev).
Proof.
  intros Hev h. unfold await, backend_calls, writes. simpl. rewrite Hev.
  destruct (is_write _); simpl; lia.
Qed.

Section Counting.

Variable w : World.

Lemma callBackend_at_most p : at_most 1 0 (callBackend w p).
Proof.
  intros h. split; [apply callBackend_events|].
  destruct (callBackend_answer w p h) as (v & evs & -> & Hev & _). simpl.
  unfold writes. induction Hev as [|ev evs Hev _ IH]; [done|].
  simpl. rewrite Hev. exact IH.
Qed.

Lemma getPrFiles_silent fuel owner repo prNumber baseSha headSha :
  at_most 0 0 (getPrFiles w fuel owner repo prNumber baseSha headSha).
Proof.
  eapply at_most_silent; [|apply getPrFiles_emits].
  intros ev. unfold read_event, silent_event. by destruct ev.
Qed.

End Counting.

Ltac silent_leaf :=
  first
    [ apply getPrFiles_silent
    | apply (at_most_silent silent_event (fun _ => True)); [done|];
      first [ by apply emits_ret | by apply emits_lift | by apply emits_log
            | apply and_get_emits ] ].

Ltac at_most_step :=
  first
    [ progress cbv zeta
    | match goal with
      | |- at_most _ _ (bind (callBackend _ _) _) =>
          apply (at_most_bind 1 0 0 1); [apply callBackend_at_most|intros ?]
      | |- at_most ?a ?b (bind (await _ _) _) =>
          apply (at_most_bind 0 1 0 0);
          [by apply at_most_await_write|intros ?]
      | |- at_most ?a ?b (bind _ _) =>
          apply (at_most_bind 0 0 a b); [solve [silent_leaf]|intros ?]
      | |- at_most _ _ (if ?b then _ else _) => destruct b
      | |- at_most 0 1 (await _ _) => by apply at_most_await_write
      end
    | apply (at_most_weaken 0 0); [lia|lia|];
      apply (at_most_silent silent_event (fun _ => True)); [done|];
      first [ by apply emits_ret | by apply emits_log ] ].

Section Once.

Variable w : World.
Variable fuel : nat.
Variable payload : value.

(** X10: a delivery costs at most one request to the backend and at most
    one write to GitHub, whatever the world answers. *)
Theorem handlers_call_once h :
  (backend_calls (snd (on_pull_request_review_submitted w fuel payload h)) <= 1
   /\ writes (snd (on_pull_request_review_submitted w fuel payload h)) <= 1)
  /\ (backend_calls
        (snd (on_pull_request_review_comment_created w fuel payload h)) <= 1
      /\ writes
           (snd (on_pull_request_review_comment_created w fuel payload h))
         <= 1).
Proof.
  split.
  - apply (at_most_guard _ _ 1 1). unfold review_submitted_body.
    repeat at_most_step.
  - apply (at_most_guard _ _ 1 1). unfold review_comment_created_body.
    repeat at_most_step.
Qed.

End Once.

(** ** The handlers: when they act *)

Section Acting.

Variable w : World.
Variable fuel : nat.
Variable payload : value.

Lemma review_acts :
  emits (fun ev => is_log ev = false -> actionable payload "review")
    (fun _ => True) (review_submitted_body w fuel payload).
Proof.
  unfold review_submitted_body. repeat handler_step. know_text. know_about payload.
  apply emits_always. intros ev _. split; [done|]. split; [|eauto 10].
  eexists. split; [|exact Hbody]. solve_path.
Qed.

Lemma review_comment_acts :
  emits (fun ev => is_log ev = false -> actionable payload "comment")
    (fun _ => True) (review_comment_created_body w fuel payload).
Proof.
  unfold review_comment_created_body. repeat handler_step. know_text.
  know_about payload.
  apply emits_always. intros ev _. split; [done|]. split; [|eauto 10].
  eexists. split; [|exact Hbody]. solve_path.
Qed.

(** X11: a handler calls GitHub or the backend only for a delivery whose
    sender is no bot, whose text is a string that is not blank, and whose
    repository owner and name and pull request number, base and head
    [sha] can be read; on any other delivery it logs at most. *)
Theorem handlers_act_only_on_text h :
  (forall ev,
      In ev (snd (on_pull_request_review_submitted w fuel payload h)) ->
      is_log ev = false -> actionable payload "review")
  /\ (forall ev,
      In ev (snd (on_pull_request_review_comment_created w fuel payload h)) ->
      is_log ev = false -> actionable payload "comment").
Proof.
  split; intros ev Hin%list_elem_of_In.
  - assert (Hh : emits (fun ev => is_log ev = false ->
                                  actionable payload "review")
                   (fun _ => True)
                   (on_pull_request_review_submitted w fuel payload)).
    { apply guarded_emits; [done|apply review_acts]. }
    destruct (Hh h) as [Hev _]. rewrite Forall_forall in Hev. by apply Hev.
  - assert (Hh : emits (fun ev => is_log ev = false ->
                                  actionable payload "comment")
                   (fun _ => True)
                   (on_pull_request_review_comment_created w fuel payload)).
    { apply guarded_emits; [done|apply review_comment_acts]. }
    destruct (Hh h) as [Hev _]. rewrite Forall_forall in Hev. by apply Hev.
Qed.

End Acting.

(** ** The handlers: a delivery from end to end *)

Lemma bind_pure {A B} (m : M A) (k : A -> M B) h a :
  m h = (Done a, []) -> bind m k h = k a h.
Proof.
  intros Hm. rewrite (bind_done _ _ _ _ _ Hm), app_nil_r.
  by destruct (k a h).
Qed.

Lemma bind_lift {A B} (a : A) (k : A -> M B) h :
  bind (lift (Ok a)) k h = k a h.
Proof. by apply bind_pure. Qed.

Lemma bind_await {A B} (answer : list event -> result A) ev
    (k : A -> M B) h :
  bind (await answer ev) k h
  = match answer h with
    | Ok a => (fst (k a (h ++ [ev (Ok a)])),
               ev (Ok a) :: snd (k a (h ++ [ev (Ok a)])))
    | Throw e => (Raised e, [ev (Throw e)])
    end.
Proof.
  unfold bind. rewrite await_run. destruct (answer h) as [a|e]; [|done].
  by destruct (k a _).
Qed.

Lemma and_get_pure a k :
  exists x, forall h, and_get a k h = (Done x, []).
Proof.
  unfold and_get. destruct (truthy a) eqn:Ha; [|by exists a].
  destruct (get_truthy a k Ha) as [x Hx]. exists x. intros h. by rewrite Hx.
Qed.

Lemma get_path_cons v k ks x :
  get_path v (k :: ks) = Ok x ->
  exists y, get v k = Ok y /\ get_path y ks = Ok x.
Proof. simpl. destruct (get v k) as [y|e]; [eauto|discriminate]. Qed.

Lemma text_truthy text :
  is_text text ->
  js_or text (str "") = text
  /\ exists t, call_trim text = Ok t /\ negb (truthy t) = false.
Proof.
  intros (s & -> & Hs).
  assert (s <> []) by (intros ->; apply Hs; constructor).
  split; [unfold js_or; by destruct s|].
  eexists. split; [reflexivity|]. simpl.
  destruct (trim s) eqn:E; [by apply trim_nil in E|done].
Qed.

Ltac open_paths :=
  repeat match goal with
         | H : get_path _ (_ :: _) = Ok _ |- _ =>
             let y := fresh "v" in
             let Hy := fresh "Hget" in
             apply get_path_cons in H as (y & Hy & H)
         | H : get_path _ [] = Ok _ |- _ => injection H as H; subst
         end;
  repeat match goal with
         | H1 : get ?v ?k = Ok ?a, H2 : get ?v ?k = Ok ?b |- _ =>
             assert (a = b) by congruence; subst; clear H2
         end.

Ltac read_on :=
  repeat first
    [ progress cbv zeta
    | rewrite bind_lift
    | match goal with
      | H : get ?v ?k = Ok _ |- context [lift (get ?v ?k)] =>
          rewrite H, bind_lift
      | H : get ?v _ = Ok _ |- context [lift (get ?v ?k)] =>
          let x := fresh "x" in
          let Hx := fresh "Hx" in
          destruct (get_twice _ _ _ k H) as [x Hx]; rewrite Hx, bind_lift
      | |- context [bind (and_get ?a ?k) _] =>
          let x := fresh "x" in
          let Hx := fresh "Hx" in
          destruct (and_get_pure a k) as [x Hx];
          rewrite (bind_pure _ _ _ _ (Hx _))
      end ].

Section EndToEnd.

Variable w : World.
Variable fuel : nat.
Variable payload : value.
Variables owner repoName prNumber baseSha headSha text : value.
Variable h : list event.
Variable collected : list ChangedFile.
Variable evs : list event.

Hypothesis Hbot : isFromBot payload = Ok false.
Hypothesis Habout : about payload owner repoName prNumber baseSha headSha.
Hypothesis Htext : is_text text.
Hypothesis Hfiles :
  getPrFiles w fuel owner repoName prNumber baseSha headSha h
  = (Done collected, evs).

Lemma review_reaches_backend :
  get_path payload ["review"; "body"] = Ok text ->
  exists p,
    review_submitted_body w fuel payload h
    = (fst (bind (callBackend w p)
              (fun commentBody =>
                 if negb (truthy commentBody) then ret tt
                 else await (fun h' => createComment w h' owner repoName
                                         prNumber commentBody)
                        (ECreateComment owner repoName prNumber commentBody))
              (h ++ evs)),
       evs ++ snd (bind (callBackend w p)
              (fun commentBody =>
                 if negb (truthy commentBody) then ret tt
                 else await (fun h' => createComment w h' owner repoName
                                         prNumber commentBody)
                        (ECreateComment owner repoName prNumber commentBody))
              (h ++ evs)))
    /\ files p = collected /\ review_body p = text
    /\ kind p = str "review".
Proof.
  intros Hbody. destruct Habout as (Ho & Hr & Hn & Hb & Hh).
  destruct (text_truthy _ Htext) as (Hor & t & Ht & Htt).
  open_paths. unfold review_submitted_body.
  rewrite Hbot, bind_lift. read_on. rewrite Hor, Ht, bind_lift, Htt.
  read_on. rewrite (bind_done _ _ _ _ _ Hfiles). read_on.
  eexists. split; [reflexivity|]. done.
Qed.

Lemma text_is_truthy c : ~ blank c -> truthy (VStr c) = true.
Proof. destruct c; [|done]. intros H. destruct H. constructor. Qed.

(** X12: a review with a text, by a sender that is no bot, on a pull
    request whose files the collector returns: when the backend answers
    with a comment that is not blank, the handler sends one payload (of
    kind ["review"], with the text and the collected files), then posts
    that comment, unchanged, on the pull request, and ends normally; if
    the post fails, the error is logged after it. *)
Theorem review_end_to_end data c :
  get_path payload ["review"; "body"] = Ok text ->
  truthy (backendUrl w) = true ->
  (forall h' p, axios_post w h' (backendUrl w) p = Ok data) ->
  get data "comment" = Ok (VStr c) -> ~ blank c ->
  exists p,
    kind p = str "review" /\ review_body p = text /\ files p = collected
    /\ let sent := [ELog Info "Sending payload to backend" (CtxPayload p);
                    EPost (backendUrl w) p (Ok data)] in
       let r := createComment w ((h ++ evs) ++ sent) owner repoName prNumber
                  (VStr c) in
       on_pull_request_review_submitted w fuel payload h
       = (Done tt,
          evs ++ sent
          ++ ECreateComment owner repoName prNumber (VStr c) r
             :: match r with
                | Ok _ => []
                | Throw e =>
                    [ELog Error
                       "Error while handling pull_request_review.submitted"
                       (CtxErr e)]
                end).
Proof.
  intros Hbody Hurl Hpost Hc Hnb.
  destruct (review_reaches_backend Hbody) as (p & Hrun & Hf & Hb & Hk).
  exists p. split; [done|]. split; [done|]. split; [done|]. intros sent r.
  rewrite (bind_done _ _ _ _ _
             (callBackend_comment w p (h ++ evs) data c Hurl (Hpost _ _) Hc Hnb))
    in Hrun.
  rewrite (text_is_truthy _ Hnb) in Hrun. cbn [negb] in Hrun.
  rewrite await_run in Hrun. cbn [fst snd] in Hrun.
  fold sent in Hrun. fold r in Hrun.
  unfold on_pull_request_review_submitted. destruct r as [[]|e].
  - by rewrite (try_catch_done _ _ _ _ _ Hrun).
  - rewrite (guarded_logs _ _ _ _ _ Hrun). f_equal.
    by rewrite <- !app_assoc.
Qed.

(** X13: the same review when no [BACKEND_URL] is set: the files are
    collected all the same, then the missing setting is logged; nothing
    is sent and nothing is posted. *)
Theorem review_without_endpoint :
  get_path payload ["review"; "body"] = Ok text ->
  truthy (backendUrl w) = false ->
  on_pull_request_review_submitted w fuel payload h
  = (Done tt,
     evs ++ [ELog Error "BACKEND_URL is not set in environment variables"
               NoCtx]).
Proof.
  intros Hbody Hurl.
  destruct (review_reaches_backend Hbody) as (p & Hrun & _).
  rewrite (bind_done _ _ _ _ _ (callBackend_unset w p (h ++ evs) Hurl)) in Hrun.
  simpl in Hrun. unfold on_pull_request_review_submitted.
  by rewrite (try_catch_done _ _ _ _ _ Hrun).
Qed.

(** X14: an inline comment with a text, by a sender that is no bot: when
    the backend answers with a comment that is not blank, the handler
    sends one payload (of kind ["review_comment"], with the text and the
    collected files), then posts that comment, unchanged, as a reply to
    the comment of the delivery; it logs that it replied exactly when the
    reply succeeded, and the error otherwise; it ends normally. *)
Theorem comment_end_to_end data c id :
  get_path payload ["comment"; "body"] = Ok text ->
  get_path payload ["comment"; "id"] = Ok id ->
  truthy (backendUrl w) = true ->
  (forall h' p, axios_post w h' (backendUrl w) p = Ok data) ->
  get data "comment" = Ok (VStr c) -> ~ blank c ->
  exists p,
    kind p = str "review_comment" /\ comment_body p = text
    /\ comment_id p = id /\ files p = collected
    /\ let sent := [ELog Info "Sending payload to backend" (CtxPayload p);
                    EPost (backendUrl w) p (Ok data)] in
       let r := createReplyForReviewComment w ((h ++ evs) ++ sent)
                  owner repoName prNumber id (VStr c) in
       on_pull_request_review_comment_created w fuel payload h
       = (Done tt,
          evs ++ sent
          ++ [ECreateReply owner repoName prNumber id (VStr c) r;
              match r with
              | Ok _ => ELog Info "Replied to inline review comment." NoCtx
              | Throw e =>
                  ELog Error
                    "Error while handling pull_request_review_comment.created"
                    (CtxErr e)
              end]).
Proof.
  intros Hbody Hid Hurl Hpost Hc Hnb.
  destruct Habout as (Ho & Hr & Hn & Hb & Hh).
  destruct (text_truthy _ Htext) as (Hor & t & Ht & Htt).
  open_paths.
  assert (Hrun : exists p,
             (let sent :=
                [ELog Info "Sending payload to backend" (CtxPayload p);
                 EPost (backendUrl w) p (Ok data)] in
              let r := createReplyForReviewComment w ((h ++ evs) ++ sent)
                         owner repoName prNumber id (VStr c) in
              review_comment_created_body w fuel payload h
              = (match r with Ok _ => Done tt | Throw e => Raised e end,
                 evs ++ sent
                 ++ ECreateReply owner repoName prNumber id (VStr c) r
                    :: match r with
                       | Ok _ =>
                           [ELog Info "Replied to inline review comment."
                              NoCtx]
                       | Throw _ => []
                       end))
             /\ kind p = str "review_comment" /\ comment_body p = text
             /\ comment_id p = id /\ files p = collected).
  { unfold review_comment_created_body.
    rewrite Hbot, bind_lift. read_on. rewrite Hor, Ht, bind_lift, Htt.
    read_on. rewrite (bind_done _ _ _ _ _ Hfiles). read_on.
    rewrite (bind_done _ _ _ _ _
               (callBackend_comment w _ (h ++ evs) data c Hurl (Hpost _ _)
                  Hc Hnb)).
    rewrite (text_is_truthy _ Hnb). cbn [negb]. read_on.
    rewrite bind_await.
    match goal with |- context [CtxPayload ?p] => exists p end.
    split; [|done]. cbv zeta.
    destruct (createReplyForReviewComment _ _ _ _ _ _ _) as [[]|e];
      reflexivity. }
  destruct Hrun as (p & Hrun & Hk & Hcb & Hci & Hf).
  exists p. repeat (split; [done|]). intros sent r.
  cbv zeta in Hrun. fold sent in Hrun. fold r in Hrun.
  unfold on_pull_request_review_comment_created.
  destruct r as [[]|e].
  - by rewrite (try_catch_done _ _ _ _ _ Hrun).
  - rewrite (guarded_logs _ _ _ _ _ Hrun). f_equal.
    by rewrite <- !app_assoc.
Qed.

End EndToEnd.

(** ** On sample deliveries *)

Lemma text_looks_good : is_text (str "Looks good").
Proof.
  exists (lit "Looks good"). split; [reflexivity|].
  intros H%trim_nil. vm_compute in H. discriminate H.
Qed.

Lemma about_delivery sender text :
  about (delivery sender text)
    (str "org") (str "repo") (VNum 7) (str "base") (str "head").
Proof. repeat split; vm_compute; reflexivity. Qed.

(** A file whose content is text. *)
Lemma getFileContent_decodes_witness :
  getFileContent (healthy [] (str "text") VNull)
    (str "org") (str "repo") (str "a.js") (str "head") []
  = (Done (str "text"),
     [EGetContent (str "org") (str "repo") (str "a.js") (str "head")
        (Ok (VObj {[ "content" := str "text"; "encoding" := str "utf8" ]}))]).
Proof.
  apply (getFileContent_decodes (healthy [] (str "text") VNull)
           (str "org") (str "repo") (str "a.js") (str "head") []
           {[ "content" := str "text"; "encoding" := str "utf8" ]}
           (str "text") (lit "text"));
    vm_compute; reflexivity.
Defined.

(** A file whose content is a number: there is nothing to decode. *)
Lemma getFileContent_unreadable_witness :
  getFileContent (healthy [] (VNum 5) VNull)
    (str "org") (str "repo") (str "a.js") (str "head") []
  = (Done VNull,
     [EGetContent (str "org") (str "repo") (str "a.js") (str "head")
        (Ok (VObj {[ "content" := VNum 5; "encoding" := str "utf8" ]}));
      ELog Error "Failed to fetch file content from GitHub"
        (CtxFetch TypeError (str "a.js") (str "head"))]).
Proof.
  apply (getFileContent_unreadable (healthy [] (VNum 5) VNull)
           (str "org") (str "repo") (str "a.js") (str "head") []
           (VObj {[ "content" := VNum 5; "encoding" := str "utf8" ]}));
    [reflexivity|reflexivity|].
  right. exists (VNum 5), (str "utf8").
  repeat split; vm_compute; reflexivity.
Defined.

(** The metadata of the four files of the sample pull request. *)
Lemma getPrFiles_keeps_metadata_witness :
  exists out,
    fst (getPrFiles (healthy four_files (str "text") VNull) 1
           (str "org") (str "repo") (VNum 7) (str "base") (str "head") [])
    = Done out
    /\ Forall2
         (fun f cf =>
            filename cf = prop f "filename"
            /\ status cf = prop f "status"
            /\ additions cf = prop f "additions"
            /\ deletions cf = prop f "deletions"
            /\ changes cf = prop f "changes"
            /\ patch cf = (if truthy (prop f "patch") then prop f "patch"
                           else VNull))
         four_files out.
Proof.
  eexists. split; [vm_compute; reflexivity|].
  change four_files
    with (listed (snd (getPrFiles (healthy four_files (str "text") VNull) 1
                         (str "org") (str "repo") (VNum 7)
                         (str "base") (str "head") []))) at 1.
  apply getPrFiles_keeps_metadata. vm_compute. reflexivity.
Defined.

(** [callBackend] in a world without [BACKEND_URL]. *)
Lemma callBackend_one_request_witness :
  callBackend (no_endpoint [] (str "text") (str "Thanks!")) blank_payload []
  = (Done VNull,
     [ELog Error "BACKEND_URL is not set in environment variables" NoCtx]).
Proof.
  destruct (callBackend_one_request
              (no_endpoint [] (str "text") (str "Thanks!")) blank_payload [])
    as (_ & _ & Hunset).
  apply Hunset. reflexivity.
Defined.

(** What the review handler sends for the sample review. *)
Lemma review_payload_sent_witness :
  exists p,
    In (EPost (str "http://localhost:8000/analyze") p
          (Ok (VObj {[ "comment" := str "Thanks!" ]})))
      (snd (on_pull_request_review_submitted
              (healthy four_files (str "text") (str "Thanks!"))
              1 (delivery human (str "Looks good")) []))
    /\ review_payload (delivery human (str "Looks good")) p.
Proof.
  eexists. split.
  - vm_compute. do 8 right. left. reflexivity.
  - eapply (review_payload_sent
              (healthy four_files (str "text") (str "Thanks!"))
              1 (delivery human (str "Looks good")) []).
    vm_compute. do 8 right. left. reflexivity.
Defined.

(** What the inline-comment handler sends for the sample comment. *)
Lemma comment_payload_sent_witness :
  exists p,
    In (EPost (str "http://localhost:8000/analyze") p
          (Ok (VObj {[ "comment" := str "Thanks!" ]})))
      (snd (on_pull_request_review_comment_created
              (healthy four_files (str "text") (str "Thanks!"))
              1 (delivery human (str "Looks good")) []))
    /\ comment_payload (delivery human (str "Looks good")) p.
Proof.
  eexists. split.
  - vm_compute. do 8 right. left. reflexivity.
  - eapply (comment_payload_sent
              (healthy four_files (str "text") (str "Thanks!"))
              1 (delivery human (str "Looks good")) []).
    vm_compute. do 8 right. left. reflexivity.
Defined.

(** The sample review is listed for: it is a delivery to act on. *)
Lemma handlers_act_only_on_text_witness :
  actionable (delivery human (str "Looks good")) "review".
Proof.
  destruct (handlers_act_only_on_text
              (healthy four_files (str "text") (str "Thanks!"))
              1 (delivery human (str "Looks good")) []) as [Hreview _].
  apply (Hreview (EListFiles (str "org") (str "repo") (VNum 7) 100 1
                    (Ok four_files))); [|reflexivity].
  vm_compute. left. reflexivity.
Defined.

(** The sample review from end to end: ["Thanks!"] is posted. *)
Lemma review_end_to_end_witness :
  fst (on_pull_request_review_submitted
         (healthy four_files (str "text") (str "Thanks!"))
         1 (delivery human (str "Looks good")) []) = Done tt
  /\ In (ECreateComment (str "org") (str "repo") (VNum 7) (str "Thanks!")
           (Ok tt))
       (snd (on_pull_request_review_submitted
               (healthy four_files (str "text") (str "Thanks!"))
               1 (delivery human (str "Looks good")) [])).
Proof.
  eassert (Hfiles : getPrFiles (healthy four_files (str "text") (str "Thanks!"))
                      1 (str "org") (str "repo") (VNum 7)
                      (str "base") (str "head") [] = (Done _, _))
    by (vm_compute; reflexivity).
  destruct (review_end_to_end
              (healthy four_files (str "text") (str "Thanks!")) 1
              (delivery human (str "Looks good"))
              (str "org") (str "repo") (VNum 7) (str "base") (str "head")
              (str "Looks good") [] _ _
              eq_refl (about_delivery _ _) text_looks_good Hfiles
              (VObj {[ "comment" := str "Thanks!" ]}) (lit "Thanks!")
              eq_refl eq_refl (fun _ _ => eq_refl) eq_refl not_blank_text)
    as (p & _ & _ & _ & Hrun).
  cbv zeta in Hrun. rewrite Hrun. split; [reflexivity|].
  apply in_app_iff. right. do 2 right. left. reflexivity.
Defined.

(** The sample review in a world without [BACKEND_URL]. *)
Lemma review_without_endpoint_witness :
  fst (on_pull_request_review_submitted
         (no_endpoint four_files (str "text") (str "Thanks!"))
         1 (delivery human (str "Looks good")) []) = Done tt
  /\ In (ELog Error "BACKEND_URL is not set in environment variables" NoCtx)
       (snd (on_pull_request_review_submitted
               (no_endpoint four_files (str "text") (str "Thanks!"))
               1 (delivery human (str "Looks good")) [])).
Proof.
  eassert (Hfiles : getPrFiles
                      (no_endpoint four_files (str "text") (str "Thanks!"))
                      1 (str "org") (str "repo") (VNum 7)
                      (str "base") (str "head") [] = (Done _, _))
    by (vm_compute; reflexivity).
  rewrite (review_without_endpoint
             (no_endpoint four_files (str "text") (str "Thanks!")) 1
             (delivery human (str "Looks good"))
             (str "org") (str "repo") (VNum 7) (str "base") (str "head")
             (str "Looks good") [] _ _
             eq_refl (about_delivery _ _) text_looks_good Hfiles
             eq_refl eq_refl).
  split; [reflexivity|]. apply in_app_iff. right. left. reflexivity.
Defined.

(** The sample inline comment from end to end: ["Thanks!"] is the reply. *)
Lemma comment_end_to_end_witness :
  fst (on_pull_request_review_comment_created
         (healthy four_files (str "text") (str "Thanks!"))
         1 (delivery human (str "Looks good")) []) = Done tt
  /\ In (ECreateReply (str "org") (str "repo") (VNum 7) (VNum 11)
           (str "Thanks!") (Ok tt))
       (snd (on_pull_request_review_comment_created
               (healthy four_files (str "text") (str "Thanks!"))
               1 (delivery human (str "Looks good")) [])).
Proof.
  eassert (Hfiles : getPrFiles (healthy four_files (str "text") (str "Thanks!"))
                      1 (str "org") (str "repo") (VNum 7)
                      (str "base") (str "head") [] = (Done _, _))
    by (vm_compute; reflexivity).
  destruct (comment_end_to_end
              (healthy four_files (str "text") (str "Thanks!")) 1
              (delivery human (str "Looks good"))
              (str "org") (str "repo") (VNum 7) (str "base") (str "head")
              (str "Looks good") [] _ _
              eq_refl (about_delivery _ _) text_looks_good Hfiles
              (VObj {[ "comment" := str "Thanks!" ]}) (lit "Thanks!")
              (VNum 11)
              eq_refl eq_refl eq_refl (fun _ _ => eq_refl) eq_refl
              not_blank_text)
    as (p & _ & _ & _ & _ & Hrun).
  cbv zeta in Hrun. rewrite Hrun. split; [reflexivity|].
  apply in_app_iff. right. do 2 right. left. reflexivity.
Defined.

(** ** The bot filter on a login that is no text *)

(** X15: [isFromBot] calls [endsWith] on any truthy login: for a sender
    whose type is not ["Bot"] and whose login is truthy and not a string
    (a number, an object), it raises a [TypeError] instead of answering;
    the handler logs that error and does nothing else. *)
Theorem isFromBot_raises_on_login (w : World) (fuel : nat)
    (payload sender type login : value) h :
  get payload "sender" = Ok sender -> truthy sender = true ->
  get sender "type" = Ok type -> type <> str "Bot" ->
  get sender "login" = Ok login -> truthy login = true ->
  (forall s, login <> VStr s) ->
  isFromBot payload = Throw TypeError
  /\ on_pull_request_review_submitted w fuel payload h
     = (Done tt,
        [ELog Error "Error while handling pull_request_review.submitted"
           (CtxErr TypeError)])
  /\ on_pull_request_review_comment_created w fuel payload h
     = (Done tt,
        [ELog Error "Error while handling pull_request_review_comment.created"
           (CtxErr TypeError)]).
Proof.
  intros Hs Ht Hty Hbot Hl Hlt Hns.
  pose proof (isFromBot_login_not_text _ _ _ _ Hs Ht Hty Hbot Hl Hlt Hns) as H.
  split; [done|]. split.
  - apply (guarded_logs _ _ h TypeError []).
    unfold review_submitted_body. by rewrite H.
  - apply (guarded_logs _ _ h TypeError []).
    unfold review_comment_created_body. by rewrite H.
Qed.

(** A sender whose login is a number. *)
Lemma isFromBot_raises_on_login_witness :
  isFromBot
    (delivery (VObj {[ "login" := VNum 5; "type" := str "User" ]})
       (str "Looks good"))
  = Throw TypeError.
Proof.
  apply (isFromBot_raises_on_login
           (healthy [] (str "text") VNull) 1
           (delivery (VObj {[ "login" := VNum 5; "type" := str "User" ]})
              (str "Looks good"))
           (VObj {[ "login" := VNum 5; "type" := str "User" ]})
           (str "User") (VNum 5) []);
    try (vm_compute; reflexivity).
  - intros H. vm_compute in H. discriminate H.
  - intros s H. discriminate H.
Defined.
